(** * Herpaderp::ExecuteProcess: the orchestration pipeline

    A shallow embedding of [source/ProcessHerpaderping/herpaderp.cpp].  The
    function is one linear sequence of calls into the operating system and
    into the repository's [Utils] helpers, with early returns and scoped
    (RAII) handles.  The embedding keeps that shape:

    - every external call is a constructor of [Call], indexed by the type of
      what the call hands back (return value and out-parameters);
    - the function body is a program in the monad [M], which threads the
      local handle variables and an early-return outcome over a tree of
      calls ([Prog]);
    - each call carries its [Site]: the source line it is written on, or the
      local whose scope exit issues it;
    - running a program against an environment ([Handler]) yields the
      returned [HRESULT] and the trace of calls with their results. *)

From Stdlib Require Import ZArith List String Ascii Bool Lia.
From Stdlib Require Import Init.Byte.
From Stdlib Require Import Permutation.
Import ListNotations.

Open Scope string_scope.
Open Scope list_scope.
Open Scope Z_scope.

(** ** Machine-level types *)

Definition HANDLE := Z.
Definition PVOID := Z.
Definition HRESULT := Z.
Definition NTSTATUS := Z.
Definition DWORD := Z.

(** Values from the Windows SDK headers that the source names. *)
Module Win32.

Definition S_OK : HRESULT := 0.
Definition NULL : HANDLE := 0.
Definition INVALID_HANDLE_VALUE : HANDLE := -1.

Definition GENERIC_READ : Z := 0x80000000.
Definition GENERIC_WRITE : Z := 0x40000000.
Definition FILE_SHARE_READ : Z := 0x1.
Definition FILE_SHARE_WRITE : Z := 0x2.
Definition FILE_SHARE_DELETE : Z := 0x4.
Definition CREATE_ALWAYS : Z := 2.
Definition OPEN_EXISTING : Z := 3.
Definition FILE_ATTRIBUTE_NORMAL : Z := 0x80.

Definition SECTION_ALL_ACCESS : Z := 0xF001F.
Definition PAGE_READONLY : Z := 0x02.
Definition SEC_IMAGE : Z := 0x1000000.
Definition PROCESS_ALL_ACCESS : Z := 0x1FFFFF.
Definition PROCESS_CREATE_FLAGS_INHERIT_HANDLES : Z := 0x4.
Definition THREAD_ALL_ACCESS : Z := 0x1FFFFF.
Definition ProcessBasicInformation : Z := 0.
Definition INFINITE : Z := 0xFFFFFFFF.
Definition ERROR_USER_MAPPED_FILE : Z := 1224.

(** [NtCurrentProcess()] is the pseudo handle -1. *)
Definition NtCurrentProcess : HANDLE := -1.

(** A 32-bit pattern read as a signed [HRESULT]. *)
Definition to_int32 (x : Z) : Z :=
  let y := x mod 2 ^ 32 in
  if y <? 2 ^ 31 then y else y - 2 ^ 32.

(** [FAILED(hr)], [NT_SUCCESS(status)]. *)
Definition FAILED (hr : HRESULT) : bool := hr <? 0.
Definition NT_SUCCESS (status : NTSTATUS) : bool := 0 <=? status.

(** [HRESULT_FROM_WIN32(x)]: facility 7, severity bit set. *)
Definition HRESULT_FROM_WIN32 (x : Z) : HRESULT :=
  if to_int32 x <=? 0 then to_int32 x
  else to_int32 (Z.lor (Z.lor (Z.land x 0xFFFF) (Z.shiftl 7 16)) 0x80000000).

End Win32.
Import Win32.

(** [PROCESS_BASIC_INFORMATION] and [PEB], with the one field of each that
    the function reads. *)
Record PROCESS_BASIC_INFORMATION := { PebBaseAddress : PVOID }.
Record PEB := { ImageBaseAddress : PVOID }.

(** ** Logging *)

Module Log.
Inductive Level := Success | Information | Warning | Error.
End Log.

Inductive LogArg :=
| ArgStr (s : string)
| ArgNum (n : Z).

(** ** External calls

    One constructor per function the body calls.  The index is what the
    caller gets back: the return value, paired with the value left in an
    out-parameter where there is one. *)
Inductive Call : Type -> Type :=
| CreateFileW (lpFileName : string)
              (dwDesiredAccess dwShareMode dwCreationDisposition
               dwFlagsAndAttributes : Z) : Call HANDLE
| GetLastError : Call DWORD
| CloseHandle (h : HANDLE) : Call bool
| NtCreateSection (DesiredAccess SectionPageProtection AllocationAttributes : Z)
                  (FileHandle : HANDLE) : Call (NTSTATUS * HANDLE)
| NtCreateProcessEx (DesiredAccess : Z) (ParentProcess : HANDLE) (Flags : Z)
                    (SectionHandle : HANDLE) : Call (NTSTATUS * HANDLE)
| GetProcessId (Process : HANDLE) : Call DWORD
| NtQueryInformationProcess (ProcessHandle : HANDLE)
                            (ProcessInformationClass : Z)
  : Call (NTSTATUS * PROCESS_BASIC_INFORMATION)
| ReadProcessMemory (hProcess : HANDLE) (lpBaseAddress : PVOID)
  : Call (bool * PEB)
| NtCreateThreadEx (DesiredAccess : Z) (ProcessHandle : HANDLE)
                   (StartRoutine : PVOID) : Call (NTSTATUS * HANDLE)
| GetThreadId (Thread : HANDLE) : Call DWORD
| TerminateProcess (hProcess : HANDLE) (uExitCode : Z) : Call bool
| WaitForSingleObject (hHandle : HANDLE) (dwMilliseconds : Z) : Call DWORD
| GetExitCodeProcess (hProcess : HANDLE) : Call (bool * DWORD)
| CopyFileByHandle (SourceHandle TargetHandle : HANDLE) : Call HRESULT
| GetImageEntryPointRva (FileHandle : HANDLE) : Call (HRESULT * Z)
| GetFileSize (FileHandle : HANDLE) : Call (HRESULT * Z)
| OverwriteFileAfterWithPattern (FileHandle : HANDLE) (FileOffset : Z)
                                (Pattern : list byte) : Call (HRESULT * Z)
| ExtendFileSecurityDirectory (FileHandle : HANDLE) (ExtendedBy : Z)
  : Call HRESULT
| OverwriteFileContentsWithPattern (FileHandle : HANDLE) (Pattern : list byte)
  : Call HRESULT
| WriteRemoteProcessParameters (Process : HANDLE) (ImageFileName : string)
                               (RemotePebProcessParams : PVOID) : Call HRESULT
| LogMessage (level : Log.Level) (code : option Z) (format : string)
             (args : list LogArg) : Call unit.

(** ** Local variables of the function

    The six [wil::unique_handle] locals.  [terminateProcess], the
    [wil::scope_exit] guard, is the flag [armed] of [Locals]. *)
Inductive Var :=
| processHandle | sourceHandle | targetHandle
| sectionHandle | replaceWithHandle | threadHandle.

Definition Var_eqb (a b : Var) : bool :=
  match a, b with
  | processHandle, processHandle | sourceHandle, sourceHandle
  | targetHandle, targetHandle | sectionHandle, sectionHandle
  | replaceWithHandle, replaceWithHandle | threadHandle, threadHandle => true
  | _, _ => false
  end.

Record Locals := { slot : Var -> HANDLE; armed : bool }.

Definition set (v : Var) (h : HANDLE) (l : Locals) : Locals :=
  {| slot := fun v' => if Var_eqb v' v then h else slot l v'; armed := armed l |}.

Definition disarm (l : Locals) : Locals :=
  {| slot := slot l; armed := false |}.

(** On entry every handle is empty and the guard is armed (line 25). *)
Definition entry : Locals := {| slot := fun _ => NULL; armed := true |}.

(** [wil::unique_handle::is_valid]: neither null nor [INVALID_HANDLE_VALUE]. *)
Definition is_valid (h : HANDLE) : bool :=
  negb (h =? NULL) && negb (h =? INVALID_HANDLE_VALUE).

(** ** Call sites and programs *)

Inductive Site :=
| Line (n : Z)        (* a call written on source line [n] *)
| Dtor (v : Var).     (* the close issued when local [v] leaves scope *)

Definition Site_eqb (a b : Site) : bool :=
  match a, b with
  | Line n, Line m => n =? m
  | Dtor v, Dtor w => Var_eqb v w
  | _, _ => false
  end.

Inductive Prog (R : Type) : Type :=
| Ret (r : R)
| Vis (s : Site) {T : Type} (c : Call T) (k : T -> Prog R).
Arguments Ret {R} r.
Arguments Vis {R} s {T} c k.

Fixpoint pbind {A B} (p : Prog A) (f : A -> Prog B) : Prog B :=
  match p with
  | Ret a => f a
  | Vis s c k => Vis s c (fun x => pbind (k x) f)
  end.

(** A statement either falls through with a value or returns from the
    function. *)
Inductive Outcome (A : Type) :=
| Next (a : A)
| Return (hr : HRESULT).
Arguments Next {A} a.
Arguments Return {A} hr.

Definition M (A : Type) : Type := Locals -> Prog (Outcome A * Locals).

Definition ret {A} (a : A) : M A := fun l => Ret (Next a, l).

Definition bind {A B} (m : M A) (f : A -> M B) : M B :=
  fun l => pbind (m l) (fun x =>
    match x with
    | (Next a, l') => f a l'
    | (Return hr, l') => Ret (Return hr, l')
    end).

Declare Scope herp_scope.
Delimit Scope herp_scope with herp.
Notation "x <- m ;; k" := (bind m (fun x => k))
  (at level 61, m at next level, right associativity) : herp_scope.
Notation "' pat <- m ;; k" := (bind m (fun x => match x with pat => k end))
  (at level 61, pat pattern, m at next level, right associativity) : herp_scope.
Notation "m ;; k" := (bind m (fun _ => k))
  (at level 61, right associativity) : herp_scope.
Open Scope herp_scope.

Definition call {T} (s : Site) (c : Call T) : M T :=
  fun l => Vis s c (fun x => Ret (Next x, l)).

Definition get (v : Var) : M HANDLE := fun l => Ret (Next (slot l v), l).
Definition put (v : Var) (h : HANDLE) : M unit := fun l => Ret (Next tt, set v h l).
Definition return_ {A} (hr : HRESULT) : M A := fun l => Ret (Return hr, l).
Definition when (b : bool) (m : M unit) : M unit := if b then m else ret tt.

(** [unique_handle::reset(h)]: close what is held, if valid, then hold [h]. *)
Definition reset_to (s : Site) (v : Var) (h : HANDLE) : M unit :=
  old <- get v ;;
  when (is_valid old) (_ <- call s (CloseHandle old) ;; ret tt) ;;
  put v h.

(** [unique_handle::reset()]. *)
Definition reset (s : Site) (v : Var) : M unit := reset_to s v NULL.

(** [unique_handle::release()]: give up ownership without closing. *)
Definition release (v : Var) : M unit := put v NULL.

(** [scope_exit::release()]: the guard will not run. *)
Definition terminateProcess_release : M unit := fun l => Ret (Next tt, disarm l).

(** [Utils::Log]. *)
Definition Log (s : Site) (level : Log.Level) (code : option Z)
           (format : string) (args : list LogArg) : M unit :=
  call s (LogMessage level code format args).

(** A block with a handle local to it: the handle is closed when the block
    is left, by falling through or by a return. *)
Definition scoped {A} (v : Var) (m : M A) : M A :=
  fun l => pbind (m l) (fun x =>
    let '(o, l') := x in
    if is_valid (slot l' v)
    then Vis (Dtor v) (CloseHandle (slot l' v)) (fun _ => Ret (o, set v NULL l'))
    else Ret (o, set v NULL l')).

Definition dquote : string := String (ascii_of_nat 34) EmptyString.

(** ** What the function takes from outside the repository

    The WIL return macros and two pointer macros are not part of the source
    file; what they compute is a parameter of the development.
    - [RETURN_NTSTATUS(status)] returns [NtStatusToHr status];
    - [RETURN_LAST_ERROR()] reads [GetLastError()] and returns
      [GetLastErrorFailHr] of it;
    - [Add2Ptr(p, x)] is the pointer [p] advanced by [x] bytes;
    - [FIELD_OFFSET(PEB, ProcessParameters)]. *)
Record Platform := {
  NtStatusToHr : NTSTATUS -> HRESULT;
  GetLastErrorFailHr : DWORD -> HRESULT;
  Add2Ptr : PVOID -> Z -> PVOID;
  FIELD_OFFSET_PEB_ProcessParameters : Z
}.

Section Herpaderp.

Variable pf : Platform.

(** [RETURN_HR(hr)] returns [hr] itself. *)
Definition RETURN_HR {A} (hr : HRESULT) : M A := return_ hr.

Definition RETURN_NTSTATUS {A} (status : NTSTATUS) : M A :=
  return_ (NtStatusToHr pf status).

Definition RETURN_LAST_ERROR {A} (s : Site) : M A :=
  e <- call s GetLastError ;;
  return_ (GetLastErrorFailHr pf e).

(** Lines 167-269: the content substitution. *)
Definition substitute (ReplaceWith : option string) (Pattern : list byte)
  : M unit :=
  match ReplaceWith with
  | Some path =>
    (* (A) We are overwriting the binary with another file. *)
    scoped replaceWithHandle (
      Log (Line 172) Log.Success None
          ("Replacing target with " ++ dquote ++ "%ls" ++ dquote)%string
          [ArgStr path] ;;
      h <- call (Line 177)
             (CreateFileW path GENERIC_READ
                (Z.lor (Z.lor FILE_SHARE_READ FILE_SHARE_WRITE) FILE_SHARE_DELETE)
                OPEN_EXISTING FILE_ATTRIBUTE_NORMAL) ;;
      reset_to (Line 177) replaceWithHandle h ;;
      rw <- get replaceWithHandle ;;
      when (negb (is_valid rw)) (
        e <- call (Line 190) GetLastError ;;
        Log (Line 189) Log.Error (Some e)
            "Failed to open replace with file" [] ;;
        RETURN_LAST_ERROR (Line 192)) ;;
      (* Replace the bytes. We handle a failure here. *)
      tgt <- get targetHandle ;;
      hr <- call (Line 198) (CopyFileByHandle rw tgt) ;;
      when (FAILED hr) (
        when (negb (hr =? HRESULT_FROM_WIN32 ERROR_USER_MAPPED_FILE)) (
          Log (Line 204) Log.Error (Some hr)
              "Failed to replace target file" [] ;;
          RETURN_HR hr) ;;
        Log (Line 217) Log.Information None
            "Fixing up target replacement, hiding original bytes and retaining any signature"
            [] ;;
        ' (hr, replaceWithSize) <- call (Line 222) (GetFileSize rw) ;;
        when (FAILED hr) (
          Log (Line 225) Log.Error (Some hr)
              "Failed to get replace with file size" [] ;;
          RETURN_HR hr) ;;
        ' (hr, bytesWritten) <-
          call (Line 232)
               (OverwriteFileAfterWithPattern tgt replaceWithSize Pattern) ;;
        if FAILED hr
        then Log (Line 238) Log.Warning (Some hr)
                 "Failed to hide original file bytes" []
        else
          hr <- call (Line 244)
                  (ExtendFileSecurityDirectory tgt bytesWritten) ;;
          when (FAILED hr) (
            Log (Line 248) Log.Warning (Some hr)
                "Failed to retain file signature" [])))
  | None =>
    (* (B) Just overwrite the target binary with a pattern. *)
    Log (Line 260) Log.Success None "Overwriting target with pattern" [] ;;
    tgt <- get targetHandle ;;
    hr <- call (Line 262) (OverwriteFileContentsWithPattern tgt Pattern) ;;
    when (FAILED hr) (
      Log (Line 266) Log.Error (Some hr)
          "Failed to write pattern over file" [] ;;
      RETURN_HR hr)
  end.

(** Lines 33-388: the body of [Herpaderp::ExecuteProcess]. *)
Definition body (TargetBinary FileName : string)
           (ReplaceWith : option string) (Pattern : list byte)
           (WaitForProcess HoldHandleExclusive : bool) : M HRESULT :=
  Log (Line 33) Log.Success None
      ("Source Binary: " ++ dquote ++ "%ls" ++ dquote)%string [ArgStr TargetBinary] ;;
  Log (Line 34) Log.Success None
      ("Target File:   " ++ dquote ++ "%ls" ++ dquote)%string [ArgStr FileName] ;;
  (* Open the source binary and the target file we will execute it from. *)
  h <- call (Line 40)
         (CreateFileW TargetBinary GENERIC_READ
            (Z.lor (Z.lor FILE_SHARE_READ FILE_SHARE_WRITE) FILE_SHARE_DELETE)
            OPEN_EXISTING FILE_ATTRIBUTE_NORMAL) ;;
  reset_to (Line 40) sourceHandle h ;;
  src <- get sourceHandle ;;
  when (negb (is_valid src)) (
    e <- call (Line 51) GetLastError ;;
    Log (Line 51) Log.Error (Some e) "Failed to open source file" [] ;;
    RETURN_LAST_ERROR (Line 52)) ;;
  shareMode <-
    (if HoldHandleExclusive
     then
       Log (Line 58) Log.Information None
           "Creating target file with exclusive access" [] ;;
       ret 0
     else
       ret (Z.lor (Z.lor FILE_SHARE_READ FILE_SHARE_WRITE) FILE_SHARE_DELETE)) ;;
  h <- call (Line 64)
         (CreateFileW FileName (Z.lor GENERIC_READ GENERIC_WRITE) shareMode
            CREATE_ALWAYS FILE_ATTRIBUTE_NORMAL) ;;
  reset_to (Line 64) targetHandle h ;;
  tgt <- get targetHandle ;;
  when (negb (is_valid tgt)) (
    e <- call (Line 74) GetLastError ;;
    Log (Line 73) Log.Error (Some e) "Failed to create target file" [] ;;
    RETURN_LAST_ERROR (Line 76)) ;;
  (* Copy the content of the source process to the target. *)
  hr <- call (Line 82) (CopyFileByHandle src tgt) ;;
  when (FAILED hr) (
    Log (Line 86) Log.Error (Some hr)
        "Failed to copy source binary to target file" [] ;;
    RETURN_HR hr) ;;
  Log (Line 92) Log.Information None
      "Copied source binary to target file" [] ;;
  (* We're done with the source binary. *)
  reset (Line 97) sourceHandle ;;
  (* Map and create the target process. *)
  reset (Line 103) sectionHandle ;;
  ' (status, h) <-
    call (Line 103)
         (NtCreateSection SECTION_ALL_ACCESS PAGE_READONLY SEC_IMAGE tgt) ;;
  put sectionHandle h ;;
  when (negb (NT_SUCCESS status)) (
    release sectionHandle ;;
    Log (Line 113) Log.Error (Some status)
        "Failed to create target file image section" [] ;;
    RETURN_NTSTATUS status) ;;
  Log (Line 117) Log.Information None "Created image section for target" [] ;;
  reset (Line 119) processHandle ;;
  sec <- get sectionHandle ;;
  ' (status, h) <-
    call (Line 119)
         (NtCreateProcessEx PROCESS_ALL_ACCESS NtCurrentProcess
            PROCESS_CREATE_FLAGS_INHERIT_HANDLES sec) ;;
  put processHandle h ;;
  when (negb (NT_SUCCESS status)) (
    release processHandle ;;
    Log (Line 131) Log.Error (Some status) "Failed to create process" [] ;;
    RETURN_NTSTATUS status) ;;
  proc <- get processHandle ;;
  pid <- call (Line 137) (GetProcessId proc) ;;
  Log (Line 135) Log.Information None
      "Created process object, PID %lu" [ArgNum pid] ;;
  (* Alright we have the process set up, we don't need the section. *)
  reset (Line 142) sectionHandle ;;
  (* Go get the remote entry RVA to create a thread later on. *)
  ' (hr, imageEntryPointRva) <-
    call (Line 148) (GetImageEntryPointRva tgt) ;;
  when (FAILED hr) (
    Log (Line 152) Log.Error (Some hr)
        "Failed to get target file image entry RVA" [] ;;
    RETURN_HR hr) ;;
  Log (Line 158) Log.Information None
      "Located target image entry RVA 0x%08x" [ArgNum imageEntryPointRva] ;;
  substitute ReplaceWith Pattern ;;
  (* Do the work necessary to make it execute. *)
  Log (Line 275) Log.Success None "Preparing target for execution" [] ;;
  ' (status, pbi) <-
    call (Line 278)
         (NtQueryInformationProcess proc ProcessBasicInformation) ;;
  when (negb (NT_SUCCESS status)) (
    Log (Line 285) Log.Error (Some status)
        "Failed to query new process info" [] ;;
    RETURN_NTSTATUS status) ;;
  ' (ok, peb) <-
    call (Line 290) (ReadProcessMemory proc (PebBaseAddress pbi)) ;;
  when (negb ok) (
    e <- call (Line 297) GetLastError ;;
    Log (Line 296) Log.Error (Some e)
        "Failed to read remote process PEB" [] ;;
    RETURN_LAST_ERROR (Line 299)) ;;
  let remotePebProcessParams :=
    Add2Ptr pf (PebBaseAddress pbi) (FIELD_OFFSET_PEB_ProcessParameters pf) in
  Log (Line 305) Log.Information None
      "Writing process parameters, remote PEB ProcessParameters 0x%p"
      [ArgNum remotePebProcessParams] ;;
  hr <- call (Line 309)
          (WriteRemoteProcessParameters proc FileName remotePebProcessParams) ;;
  when (FAILED hr) (
    Log (Line 314) Log.Error (Some hr)
        "Failed to write remote process parameters" [] ;;
    RETURN_HR hr) ;;
  (* Create the initial thread. *)
  let remoteEntryPoint :=
    Add2Ptr pf (ImageBaseAddress peb) imageEntryPointRva in
  Log (Line 326) Log.Information None
      "Creating thread in process at entry point 0x%p"
      [ArgNum remoteEntryPoint] ;;
  reset (Line 331) threadHandle ;;
  ' (status, h) <-
    call (Line 331) (NtCreateThreadEx THREAD_ALL_ACCESS proc remoteEntryPoint) ;;
  put threadHandle h ;;
  when (negb (NT_SUCCESS status)) (
    release threadHandle ;;
    Log (Line 345) Log.Error (Some status)
        "Failed to create remote thread" [] ;;
    RETURN_NTSTATUS status) ;;
  thr <- get threadHandle ;;
  tid <- call (Line 351) (GetThreadId thr) ;;
  Log (Line 349) Log.Information None "Created thread, TID %lu" [ArgNum tid] ;;
  (* Process was executed successfully. Do not terminate. *)
  terminateProcess_release ;;
  when (negb HoldHandleExclusive) (
    (* We're done with the target file handle. *)
    reset (Line 364) targetHandle) ;;
  (if WaitForProcess
   then
     (* Wait for the process to exit. *)
     Log (Line 372) Log.Success None
         "Waiting for herpaderped process to exit" [] ;;
     _ <- call (Line 374) (WaitForSingleObject proc INFINITE) ;;
     ' (_, targetExitCode) <- call (Line 377) (GetExitCodeProcess proc) ;;
     Log (Line 379) Log.Success None
         "Herpaderped process exited with code 0x%08x"
         [ArgNum targetExitCode]
   else
     Log (Line 385) Log.Success None
         "Successfully spawned herpaderped process" []) ;;
  return_ S_OK.

(** Lines 25-31: the [terminateProcess] scope-exit guard; its lambda runs
    when the guard leaves scope, unless it was released. *)
Definition terminateProcess : M unit :=
  fun l =>
    if armed l
    then
      if is_valid (slot l processHandle)
      then Vis (Line 29) (TerminateProcess (slot l processHandle) 0)
               (fun _ => Ret (Next tt, l))
      else Ret (Next tt, l)
    else Ret (Next tt, l).

(** Leaving the function: the locals are destroyed in the reverse order of
    their declarations (lines 330, 102, 63, 39, 25, 21). *)
Definition unwind : M unit :=
  reset (Dtor threadHandle) threadHandle ;;
  reset (Dtor sectionHandle) sectionHandle ;;
  reset (Dtor targetHandle) targetHandle ;;
  reset (Dtor sourceHandle) sourceHandle ;;
  terminateProcess ;;
  reset (Dtor processHandle) processHandle.

Definition returned (o : Outcome HRESULT) : HRESULT :=
  match o with
  | Return hr => hr
  | Next hr => hr
  end.

(** [Herpaderp::ExecuteProcess]: the value of the [return] statement is
    fixed first, then the locals are unwound. *)
Definition ExecuteProcess (TargetBinary FileName : string)
           (ReplaceWith : option string) (Pattern : list byte)
           (WaitForProcess HoldHandleExclusive : bool) : Prog HRESULT :=
  pbind (body TargetBinary FileName ReplaceWith Pattern
              WaitForProcess HoldHandleExclusive entry)
        (fun x =>
           let '(o, l) := x in
           pbind (unwind l) (fun _ => Ret (returned o))).

End Herpaderp.

(** ** Running a program

    An environment answers every call from its own state.  [run] returns the
    function's result, the final state of the environment, and the trace:
    every call made, in order, with its site and its answer. *)
Inductive Event :=
| Ev (s : Site) {T : Type} (c : Call T) (x : T).

Definition Handler (W : Type) : Type := forall T, Call T -> W -> T * W.

Fixpoint run {W R} (os : Handler W) (p : Prog R) (w : W)
  : R * W * list Event :=
  match p with
  | Ret r => (r, w, [])
  | Vis s c k =>
    let '(x, w1) := os _ c w in
    let '(r, w2, t) := run os (k x) w1 in
    (r, w2, Ev s c x :: t)
  end.

Definition result {W R} (os : Handler W) (p : Prog R) (w : W) : R :=
  fst (fst (run os p w)).

Definition trace {W R} (os : Handler W) (p : Prog R) (w : W) : list Event :=
  snd (run os p w).

(** [sat p Q]: whatever the environment answers, the trace and the result of
    [p] satisfy [Q]. *)
Fixpoint sat {R} (p : Prog R) (Q : list Event -> R -> Prop) : Prop :=
  match p with
  | Ret r => Q [] r
  | Vis s c k => forall x, sat (k x) (fun t r => Q (Ev s c x :: t) r)
  end.

(** ** Reading a trace *)

Definition site (e : Event) : Site :=
  match e with Ev s _ _ => s end.

Definition at_site (s : Site) (e : Event) : bool := Site_eqb (site e) s.

Definition at_line (n : Z) (e : Event) : bool := at_site (Line n) e.

(** Whether a call reports success, by the test the function applies to its
    result: [is_valid] for [CreateFileW], [NT_SUCCESS] for the native calls,
    the [BOOL] of [ReadProcessMemory], [FAILED] for the [Utils] helpers.
    Calls whose result the function never tests count as successful. *)
Definition ok (e : Event) : bool :=
  match e with
  | Ev _ c x =>
    match c in Call T return T -> bool with
    | CreateFileW _ _ _ _ _ => fun h => is_valid h
    | NtCreateSection _ _ _ _ => fun r => NT_SUCCESS (fst r)
    | NtCreateProcessEx _ _ _ _ => fun r => NT_SUCCESS (fst r)
    | NtQueryInformationProcess _ _ => fun r => NT_SUCCESS (fst r)
    | ReadProcessMemory _ _ => fun r => fst r
    | NtCreateThreadEx _ _ _ => fun r => NT_SUCCESS (fst r)
    | CopyFileByHandle _ _ => fun hr => negb (FAILED hr)
    | GetImageEntryPointRva _ => fun r => negb (FAILED (fst r))
    | GetFileSize _ => fun r => negb (FAILED (fst r))
    | OverwriteFileAfterWithPattern _ _ _ => fun r => negb (FAILED (fst r))
    | ExtendFileSecurityDirectory _ _ => fun hr => negb (FAILED hr)
    | OverwriteFileContentsWithPattern _ _ => fun hr => negb (FAILED hr)
    | WriteRemoteProcessParameters _ _ _ => fun hr => negb (FAILED hr)
    | _ => fun _ => true
    end x
  end.

(** The file a call writes to, if it writes to one. *)
Definition written_file (e : Event) : option HANDLE :=
  match e with
  | Ev _ c _ =>
    match c with
    | CopyFileByHandle _ dst => Some dst
    | OverwriteFileAfterWithPattern f _ _ => Some f
    | ExtendFileSecurityDirectory f _ => Some f
    | OverwriteFileContentsWithPattern f _ => Some f
    | _ => None
    end
  end.

Definition writes_file (e : Event) : bool :=
  match written_file e with
  | Some _ => true
  | None => false
  end.

(** The handles a call is given. *)
Definition handle_args (e : Event) : list HANDLE :=
  match e with
  | Ev _ c _ =>
    match c with
    | CloseHandle h => [h]
    | NtCreateSection _ _ _ f => [f]
    | NtCreateProcessEx _ parent _ sec => [parent; sec]
    | GetProcessId p => [p]
    | NtQueryInformationProcess p _ => [p]
    | ReadProcessMemory p _ => [p]
    | NtCreateThreadEx _ p _ => [p]
    | GetThreadId th => [th]
    | TerminateProcess p _ => [p]
    | WaitForSingleObject h _ => [h]
    | GetExitCodeProcess p => [p]
    | CopyFileByHandle src dst => [src; dst]
    | GetImageEntryPointRva f => [f]
    | GetFileSize f => [f]
    | OverwriteFileAfterWithPattern f _ _ => [f]
    | ExtendFileSecurityDirectory f _ => [f]
    | OverwriteFileContentsWithPattern f _ => [f]
    | WriteRemoteProcessParameters p _ _ => [p]
    | _ => []
    end
  end.

(** The handle a call hands back, if it creates one. *)
Definition handle_out (e : Event) : option HANDLE :=
  match e with
  | Ev _ c x =>
    match c in Call T return T -> option HANDLE with
    | CreateFileW _ _ _ _ _ => fun h => Some h
    | NtCreateSection _ _ _ _ => fun r => Some (snd r)
    | NtCreateProcessEx _ _ _ _ => fun r => Some (snd r)
    | NtCreateThreadEx _ _ _ => fun r => Some (snd r)
    | _ => fun _ => None
    end x
  end.

Definition uses (h : HANDLE) (e : Event) : bool :=
  existsb (Z.eqb h) (handle_args e).

(** The first event at a site; the events before it; the events after it. *)
Fixpoint event_at (s : Site) (t : list Event) : option Event :=
  match t with
  | [] => None
  | e :: t' => if at_site s e then Some e else event_at s t'
  end.

Fixpoint upto (s : Site) (t : list Event) : list Event :=
  match t with
  | [] => []
  | e :: t' => if at_site s e then [] else e :: upto s t'
  end.

Fixpoint after (s : Site) (t : list Event) : list Event :=
  match t with
  | [] => []
  | e :: t' => if at_site s e then t' else after s t'
  end.

Definition occurs (s : Site) (t : list Event) : bool := existsb (at_site s) t.

(** ** Orderings on traces *)

(** Every [Q]-event has a [P]-event somewhere before it. *)
Definition precedes (P Q : Event -> bool) (t : list Event) : Prop :=
  forall pre e post,
    t = pre ++ e :: post -> Q e = true ->
    exists e', In e' pre /\ P e' = true.

(** No [Q]-event comes after a [P]-event. *)
Definition never_after (P Q : Event -> bool) (t : list Event) : Prop :=
  forall pre e post,
    t = pre ++ e :: post -> P e = true ->
    forall e', In e' post -> Q e' = false.

(** No event satisfies [Q]. *)
Definition absent (Q : Event -> bool) (t : list Event) : Prop :=
  forall e, In e t -> Q e = false.

Fixpoint precedes_b (P Q : Event -> bool) (seen : bool) (t : list Event) : bool :=
  match t with
  | [] => true
  | e :: t' => (negb (Q e) || seen) && precedes_b P Q (P e || seen) t'
  end.

Fixpoint never_after_b (P Q : Event -> bool) (seen : bool) (t : list Event) : bool :=
  match t with
  | [] => true
  | e :: t' => (negb (Q e) || negb seen) && never_after_b P Q (P e || seen) t'
  end.

Definition absent_b (Q : Event -> bool) (t : list Event) : bool :=
  forallb (fun e => negb (Q e)) t.

Definition both (P Q : Event -> bool) (e : Event) : bool := P e && Q e.
Definition either (P Q : Event -> bool) (e : Event) : bool := P e || Q e.

(** The status a call returns ([HRESULT] or [NTSTATUS]), if it returns one. *)
Definition status (e : Event) : option Z :=
  match e with
  | Ev _ c x =>
    match c in Call T return T -> option Z with
    | NtCreateSection _ _ _ _ => fun r => Some (fst r)
    | NtCreateProcessEx _ _ _ _ => fun r => Some (fst r)
    | NtQueryInformationProcess _ _ => fun r => Some (fst r)
    | NtCreateThreadEx _ _ _ => fun r => Some (fst r)
    | CopyFileByHandle _ _ => fun hr => Some hr
    | GetImageEntryPointRva _ => fun r => Some (fst r)
    | GetFileSize _ => fun r => Some (fst r)
    | OverwriteFileAfterWithPattern _ _ _ => fun r => Some (fst r)
    | ExtendFileSecurityDirectory _ _ => fun hr => Some hr
    | OverwriteFileContentsWithPattern _ _ => fun hr => Some hr
    | WriteRemoteProcessParameters _ _ _ => fun hr => Some hr
    | _ => fun _ => None
    end x
  end.

(** The handle handed back by the first call at a site. *)
Definition handle_at (s : Site) (t : list Event) : option HANDLE :=
  match event_at s t with
  | Some e => handle_out e
  | None => None
  end.

(** The status returned by the first call at a site, and whether that call
    succeeded. *)
Definition status_at (s : Site) (t : list Event) : option Z :=
  match event_at s t with
  | Some e => status e
  | None => None
  end.

Definition ok_at (s : Site) (t : list Event) : bool :=
  match event_at s t with
  | Some e => ok e
  | None => false
  end.

(** The object created by the call at a site: the call succeeded and handed
    back a valid handle. *)
Definition created_at (s : Site) (t : list Event) : option HANDLE :=
  match event_at s t with
  | Some e =>
    if ok e
    then match handle_out e with
         | Some h => if is_valid h then Some h else None
         | None => None
         end
    else None
  | None => None
  end.

(** A successful call hands out the handle value [h]: from there on [h]
    names the new object. *)
Definition reissues (h : HANDLE) (e : Event) : bool :=
  match handle_out e with
  | Some h' => (h' =? h) && ok e
  | None => false
  end.

(** After [h] was closed: no call is given [h], up to the point (if any)
    where the system hands the value [h] out again for a new object. *)
Fixpoint no_stale_use (h : HANDLE) (t : list Event) : bool :=
  match t with
  | [] => true
  | e :: t' =>
    negb (uses h e) && (if reissues h e then true else no_stale_use h t')
  end.

(** Calls issued while the function unwinds: the closes of the locals and
    the guard's [TerminateProcess] (line 29). *)
Definition unwinding (e : Event) : bool :=
  match site e with
  | Dtor replaceWithHandle => false
  | Dtor _ => true
  | Line n => n =? 29
  end.

Definition in_body (e : Event) : bool := negb (unwinding e).

(** The file a call maps, parses or writes as the image file. *)
Definition image_file (e : Event) : option HANDLE :=
  match e with
  | Ev _ c _ =>
    match c with
    | NtCreateSection _ _ _ f => Some f
    | GetImageEntryPointRva f => Some f
    | _ => written_file e
    end
  end.

Definition on_file (h : HANDLE) (e : Event) : bool :=
  match image_file e with
  | Some f => f =? h
  | None => true
  end.

(** The handles a call is given as files. *)
Definition file_args (e : Event) : list HANDLE :=
  match e with
  | Ev _ c _ =>
    match c with
    | NtCreateSection _ _ _ f => [f]
    | CopyFileByHandle src dst => [src; dst]
    | GetImageEntryPointRva f => [f]
    | GetFileSize f => [f]
    | OverwriteFileAfterWithPattern f _ _ => [f]
    | ExtendFileSecurityDirectory f _ => [f]
    | OverwriteFileContentsWithPattern f _ => [f]
    | _ => []
    end
  end.

Definition closes (h : HANDLE) (e : Event) : bool :=
  match e with
  | Ev _ c _ =>
    match c with
    | CloseHandle h' => h' =? h
    | _ => false
    end
  end.

(** ** C1: section and process before substitution, thread last *)

(** A call that writes to a file, other than the initial copy of the source
    into the target (line 82). *)
Definition substitution_write (e : Event) : bool :=
  writes_file e && negb (at_line 82 e).

(** The files the substitution writes go to, in order. *)
Fixpoint substitution_targets (t : list Event) : list HANDLE :=
  match t with
  | [] => []
  | e :: t' =>
    if substitution_write e
    then match written_file e with
         | Some h => h :: substitution_targets t'
         | None => substitution_targets t'
         end
    else substitution_targets t'
  end.

Definition share_all : Z :=
  Z.lor (Z.lor FILE_SHARE_READ FILE_SHARE_WRITE) FILE_SHARE_DELETE.

(** The calls that create the section, the process and the thread, and the
    call that writes the process parameters. *)
Definition creates_section (e : Event) : bool :=
  match e with
  | Ev _ c _ =>
    match c with
    | NtCreateSection _ _ _ _ => true
    | _ => false
    end
  end.

Definition creates_process (e : Event) : bool :=
  match e with
  | Ev _ c _ =>
    match c with
    | NtCreateProcessEx _ _ _ _ => true
    | _ => false
    end
  end.

Definition writes_parameters (e : Event) : bool :=
  match e with
  | Ev _ c _ =>
    match c with
    | WriteRemoteProcessParameters _ _ _ => true
    | _ => false
    end
  end.

Definition creates_thread (e : Event) : bool :=
  match e with
  | Ev _ c _ =>
    match c with
    | NtCreateThreadEx _ _ _ => true
    | _ => false
    end
  end.

(** Each of these calls is made at its line of the source and nowhere
    else, and nothing else is called from that line: 103, 119, 309, 331. *)
Definition pinned (e : Event) : bool :=
  Bool.eqb (at_line 103 e) (creates_section e) &&
  Bool.eqb (at_line 119 e) (creates_process e) &&
  Bool.eqb (at_line 309 e) (writes_parameters e) &&
  Bool.eqb (at_line 331 e) (creates_thread e).

(** The write that carries out the substitution of the chosen mode: the
    copy of the replacement (line 198) or the pattern overwrite (line
    262). *)
Definition substitutes (e : Event) : bool :=
  (at_line 198 e || at_line 262 e) && writes_file e.

Definition C1_order (t : list Event) : bool :=
  precedes_b (both (at_line 103) ok) substitution_write false t &&
  precedes_b (both (at_line 119) ok) substitution_write false t &&
  never_after_b substitution_write (at_line 103) false t &&
  precedes_b (both (at_line 82) ok) (at_line 103) false t &&
  precedes_b (both (at_line 309) ok) (at_line 331) false t &&
  precedes_b substitutes (at_line 331) false t &&
  never_after_b (at_line 331) substitution_write false t &&
  forallb pinned t.

(** The section is created on the handle of the target file, into which the
    source was copied; the process is created from that section; every
    substitution write goes to the same target handle. *)
Definition C1_flow (TargetBinary FileName : string) (t : list Event) : Prop :=
  (forall e, event_at (Line 103) t = Some e ->
     exists src share tgt hr r,
       event_at (Line 40) t =
         Some (Ev (Line 40)
                  (CreateFileW TargetBinary GENERIC_READ share_all
                               OPEN_EXISTING FILE_ATTRIBUTE_NORMAL) src) /\
       event_at (Line 64) t =
         Some (Ev (Line 64)
                  (CreateFileW FileName (Z.lor GENERIC_READ GENERIC_WRITE) share
                               CREATE_ALWAYS FILE_ATTRIBUTE_NORMAL) tgt) /\
       event_at (Line 82) t = Some (Ev (Line 82) (CopyFileByHandle src tgt) hr) /\
       e = Ev (Line 103)
              (NtCreateSection SECTION_ALL_ACCESS PAGE_READONLY SEC_IMAGE tgt) r /\
       (forall h, In h (substitution_targets t) -> h = tgt)) /\
  (forall e, event_at (Line 119) t = Some e ->
     exists tgt st sec r,
       event_at (Line 103) t =
         Some (Ev (Line 103)
                  (NtCreateSection SECTION_ALL_ACCESS PAGE_READONLY SEC_IMAGE tgt)
                  (st, sec)) /\
       e = Ev (Line 119)
              (NtCreateProcessEx PROCESS_ALL_ACCESS NtCurrentProcess
                                 PROCESS_CREATE_FLAGS_INHERIT_HANDLES sec) r).

(** ** C2: the rollback guard and the propagated error *)

(** The four [RETURN_LAST_ERROR()] statements. *)
Definition returns_last_error (s : Site) : bool :=
  existsb (Site_eqb s) [Line 52; Line 76; Line 192; Line 299].

Definition user_mapped_copy (s : Site) (hr : HRESULT) : bool :=
  Site_eqb s (Line 198) && (hr =? HRESULT_FROM_WIN32 ERROR_USER_MAPPED_FILE).

(** The failures the function exits on, each with the [HRESULT] its return
    statement forms from the failing call's code; one case per [RETURN_HR],
    [RETURN_NTSTATUS] and [RETURN_LAST_ERROR] of the source (lines 52, 76,
    89, 114, 132, 155, 192, 207, 228, 267, 286, 299, 317, 346).  For a failed
    Win32 call the code is the last error that [RETURN_LAST_ERROR] reads
    itself, after the failure was logged.  The failed copy of a replacement
    with [ERROR_USER_MAPPED_FILE] and the two calls of the fallback (lines
    232 and 244) are not among them. *)
Definition fatal (pf : Platform) (e : Event) : option HRESULT :=
  match e with
  | Ev s c x =>
    match c in Call T return T -> option HRESULT with
    | GetLastError =>
      fun code => if returns_last_error s
                  then Some (GetLastErrorFailHr pf code) else None
    | CopyFileByHandle _ _ =>
      fun hr => if FAILED hr && negb (user_mapped_copy s hr)
                then Some hr else None
    | GetImageEntryPointRva _ =>
      fun r => if FAILED (fst r) then Some (fst r) else None
    | GetFileSize _ =>
      fun r => if FAILED (fst r) then Some (fst r) else None
    | OverwriteFileContentsWithPattern _ _ =>
      fun hr => if FAILED hr then Some hr else None
    | WriteRemoteProcessParameters _ _ _ =>
      fun hr => if FAILED hr then Some hr else None
    | NtCreateSection _ _ _ _ =>
      fun r => if NT_SUCCESS (fst r) then None
               else Some (NtStatusToHr pf (fst r))
    | NtCreateProcessEx _ _ _ _ =>
      fun r => if NT_SUCCESS (fst r) then None
               else Some (NtStatusToHr pf (fst r))
    | NtQueryInformationProcess _ _ =>
      fun r => if NT_SUCCESS (fst r) then None
               else Some (NtStatusToHr pf (fst r))
    | NtCreateThreadEx _ _ _ =>
      fun r => if NT_SUCCESS (fst r) then None
               else Some (NtStatusToHr pf (fst r))
    | _ => fun _ => None
    end x
  end.

Fixpoint first_fatal (pf : Platform) (t : list Event) : option HRESULT :=
  match t with
  | [] => None
  | e :: t' =>
    match fatal pf e with
    | Some hr => Some hr
    | None => first_fatal pf t'
    end
  end.

Definition is_fatal (pf : Platform) (e : Event) : bool :=
  match fatal pf e with
  | Some _ => true
  | None => false
  end.

(** The initial thread was created (line 331 succeeded). *)
Definition thread_created (t : list Event) : bool :=
  existsb (both (at_line 331) ok) t.

(** The guard terminated process [proc]. *)
Definition terminated (proc : HANDLE) (t : list Event) : Prop :=
  exists b, event_at (Line 29) t = Some (Ev (Line 29) (TerminateProcess proc 0) b).

Definition C2_guard (pf : Platform) (t : list Event) (r : HRESULT) : Prop :=
  r = match first_fatal pf t with
      | Some hr => hr
      | None => S_OK
      end /\
  thread_created t = match first_fatal pf t with
                     | Some _ => false
                     | None => true
                     end /\
  (thread_created t = true -> absent_b (at_line 29) t = true) /\
  (thread_created t = false ->
   forall proc, created_at (Line 119) t = Some proc -> terminated proc t) /\
  precedes_b (is_fatal pf) (at_line 29) false t = true /\
  precedes_b (both (at_line 119) ok) (at_line 29) false t = true /\
  forallb unwinding (after (Line 29) t) = true.

(** The code a failure that ends the run comes with, as the failing call
    reports it: the [NTSTATUS] of a failed native call, the [HRESULT] of a
    failed helper, and for a failed Win32 call the last error, as read when
    the failure is logged.  The failures the function carries on after have
    none. *)
Definition error_code (e : Event) : option Z :=
  match e with
  | Ev s c x =>
    match c in Call T return T -> option Z with
    | GetLastError => fun code => Some code
    | CopyFileByHandle _ _ =>
      fun hr => if FAILED hr && negb (user_mapped_copy s hr)
                then Some hr else None
    | GetImageEntryPointRva _ =>
      fun r => if FAILED (fst r) then Some (fst r) else None
    | GetFileSize _ =>
      fun r => if FAILED (fst r) then Some (fst r) else None
    | OverwriteFileContentsWithPattern _ _ =>
      fun hr => if FAILED hr then Some hr else None
    | WriteRemoteProcessParameters _ _ _ =>
      fun hr => if FAILED hr then Some hr else None
    | NtCreateSection _ _ _ _ =>
      fun r => if NT_SUCCESS (fst r) then None else Some (fst r)
    | NtCreateProcessEx _ _ _ _ =>
      fun r => if NT_SUCCESS (fst r) then None else Some (fst r)
    | NtQueryInformationProcess _ _ =>
      fun r => if NT_SUCCESS (fst r) then None else Some (fst r)
    | NtCreateThreadEx _ _ _ =>
      fun r => if NT_SUCCESS (fst r) then None else Some (fst r)
    | _ => fun _ => None
    end x
  end.

(** The original error of a run: the code of its first such failure. *)
Fixpoint original_error (t : list Event) : option Z :=
  match t with
  | [] => None
  | e :: t' =>
    match error_code e with
    | Some code => Some code
    | None => original_error t'
    end
  end.

(** The claim as the specification words it: the original error code is the
    function's result, unchanged. *)
Definition C2_as_stated : Prop :=
  forall pf W (os : Handler W) (w : W) TargetBinary FileName ReplaceWith
         Pattern WaitForProcess HoldHandleExclusive,
    let p := ExecuteProcess pf TargetBinary FileName ReplaceWith Pattern
                            WaitForProcess HoldHandleExclusive in
    forall code, original_error (trace os p w) = Some code ->
                 result os p w = code.

(** ** C3: the fallback of replace-with-file mode *)

Definition USER_MAPPED : HRESULT := HRESULT_FROM_WIN32 ERROR_USER_MAPPED_FILE.

(** The claim as the specification words it: once the copy of the
    replacement fails with the mapped-file condition, the function goes on to
    hide the tail, and returns no error from the substitution. *)
Definition C3_as_stated : Prop :=
  forall pf W (os : Handler W) (w : W) TargetBinary FileName path Pattern
         WaitForProcess HoldHandleExclusive,
    let p := ExecuteProcess pf TargetBinary FileName (Some path) Pattern
                            WaitForProcess HoldHandleExclusive in
    status_at (Line 198) (trace os p w) = Some USER_MAPPED ->
    occurs (Line 232) (trace os p w) = true.

Definition warning_logged (n : Z) (hr : HRESULT) (format : string)
           (t : list Event) : Prop :=
  event_at (Line n) t =
    Some (Ev (Line n) (LogMessage Log.Warning (Some hr) format []) tt).

(** What the function does after the copy of the replacement (line 198)
    failed with [hr]. *)
Definition C3_fallback (Pattern : list byte) (t : list Event) (r : HRESULT)
           (hr : HRESULT) : Prop :=
  (hr <> USER_MAPPED ->
   r = hr /\ occurs (Line 222) t = false /\ occurs (Line 232) t = false /\
   occurs (Line 244) t = false /\ occurs (Line 278) t = false) /\
  (hr = USER_MAPPED ->
   exists rw tgt hr2 size,
     handle_at (Line 177) t = Some rw /\
     handle_at (Line 64) t = Some tgt /\
     event_at (Line 222) t = Some (Ev (Line 222) (GetFileSize rw) (hr2, size)) /\
     (FAILED hr2 = true ->
      r = hr2 /\ occurs (Line 232) t = false /\ occurs (Line 278) t = false) /\
     (FAILED hr2 = false ->
      exists hr3 bytesWritten,
        event_at (Line 232) t =
          Some (Ev (Line 232)
                   (OverwriteFileAfterWithPattern tgt size Pattern)
                   (hr3, bytesWritten)) /\
        occurs (Line 278) t = true /\
        (thread_created t = true -> r = S_OK) /\
        (FAILED hr3 = true ->
         warning_logged 238 hr3 "Failed to hide original file bytes" t /\
         occurs (Line 244) t = false) /\
        (FAILED hr3 = false ->
         exists hr4,
           event_at (Line 244) t =
             Some (Ev (Line 244)
                      (ExtendFileSecurityDirectory tgt bytesWritten) hr4) /\
           (FAILED hr4 = true ->
            warning_logged 248 hr4 "Failed to retain file signature" t)))).

(** ** C4: pattern-overwrite mode *)

Definition C4_pattern (Pattern : list byte) (t : list Event) (r : HRESULT)
  : Prop :=
  exists tgt hr,
    handle_at (Line 64) t = Some tgt /\
    event_at (Line 262) t =
      Some (Ev (Line 262) (OverwriteFileContentsWithPattern tgt Pattern) hr) /\
    substitution_targets t = [tgt] /\
    (FAILED hr = true ->
     r = hr /\ occurs (Line 278) t = false /\ thread_created t = false /\
     forall proc, created_at (Line 119) t = Some proc -> terminated proc t).

(** ** C5: waiting for the process *)

(** The claim as the specification words it: the value returned is the exit
    code of the target process. *)
Definition C5_as_stated : Prop :=
  forall pf W (os : Handler W) (w : W) TargetBinary FileName ReplaceWith
         Pattern HoldHandleExclusive,
    let p := ExecuteProcess pf TargetBinary FileName ReplaceWith Pattern
                            true HoldHandleExclusive in
    forall proc b code,
      event_at (Line 377) (trace os p w) =
        Some (Ev (Line 377) (GetExitCodeProcess proc) (b, code)) ->
      result os p w = code.

Definition C5_wait (WaitForProcess : bool) (t : list Event) (r : HRESULT)
  : Prop :=
  exists proc,
    handle_at (Line 119) t = Some proc /\
    r = S_OK /\
    occurs (Line 29) t = false /\
    if WaitForProcess
    then
      exists x b code rest,
        after (Line 372) t =
          Ev (Line 374) (WaitForSingleObject proc INFINITE) x ::
          Ev (Line 377) (GetExitCodeProcess proc) (b, code) ::
          Ev (Line 379)
             (LogMessage Log.Success None
                         "Herpaderped process exited with code 0x%08x"
                         [ArgNum code]) tt ::
          rest /\
        forallb unwinding rest = true
    else
      occurs (Line 374) t = false /\ occurs (Line 377) t = false /\
      occurs (Line 385) t = true /\
      forallb unwinding (after (Line 385) t) = true.

(** ** C6: the target handle after the thread is created *)

(** The claim as the specification words it: with exclusive access
    requested, the function does not close the target handle. *)
Definition C6_as_stated : Prop :=
  forall pf W (os : Handler W) (w : W) TargetBinary FileName ReplaceWith
         Pattern WaitForProcess,
    let p := ExecuteProcess pf TargetBinary FileName ReplaceWith Pattern
                            WaitForProcess true in
    thread_created (trace os p w) = true ->
    forall tgt, handle_at (Line 64) (trace os p w) = Some tgt ->
                absent (closes tgt) (trace os p w).

Definition target_close (e : Event) : bool :=
  at_line 364 e || at_site (Dtor targetHandle) e.

(** The sites after the report of the thread id (line 349), the two closes
    of the target handle left out. *)
Definition tail_sites (t : list Event) : list Site :=
  map site (filter (fun e => negb (target_close e)) (after (Line 349) t)).

Definition optional (b : bool) (s : Site) : list Site :=
  if b then [s] else [].

Definition C6_tail (WaitForProcess HoldHandleExclusive : bool)
           (t : list Event) : Prop :=
  exists tgt proc thr,
    handle_at (Line 64) t = Some tgt /\
    handle_at (Line 119) t = Some proc /\
    handle_at (Line 331) t = Some thr /\
    (if HoldHandleExclusive
     then
       occurs (Line 364) t = false /\
       exists b,
         event_at (Dtor targetHandle) t =
           Some (Ev (Dtor targetHandle) (CloseHandle tgt) b) /\
         forallb unwinding (after (Dtor targetHandle) t) = true /\
         never_after_b (at_site (Dtor targetHandle)) in_body false t = true
     else
       occurs (Dtor targetHandle) t = false /\
       exists b rest,
         after (Line 349) t = Ev (Line 364) (CloseHandle tgt) b :: rest) /\
    tail_sites t =
      (if WaitForProcess
       then [Line 372; Line 374; Line 377; Line 379]
       else [Line 385]) ++
      optional (is_valid thr) (Dtor threadHandle) ++
      optional (is_valid proc) (Dtor processHandle).

(** ** C8: entry point and bootstrap *)

(** Calls written in the substitution block (lines 167-269). *)
Definition substitution_stage (e : Event) : bool :=
  match site e with
  | Line n => (167 <=? n) && (n <=? 269)
  | Dtor v => Var_eqb v replaceWithHandle
  end.

Definition C8_order (t : list Event) : bool :=
  precedes_b (both (at_line 119) ok) (at_line 148) false t &&
  precedes_b (both (at_line 148) ok) substitution_stage false t &&
  never_after_b substitution_stage (at_line 148) false t &&
  precedes_b substitution_stage (at_line 278) false t &&
  never_after_b (at_line 278) substitution_stage false t &&
  precedes_b (both (at_line 278) ok) (at_line 290) false t &&
  precedes_b (both (at_line 290) ok) (at_line 309) false t &&
  precedes_b (both (at_line 309) ok) (at_line 331) false t.

Definition C8_flow (pf : Platform) (FileName : string) (t : list Event)
  : Prop :=
  forall e, event_at (Line 331) t = Some e ->
    exists tgt proc hr rva st pbi peb hr' r,
      handle_at (Line 64) t = Some tgt /\
      handle_at (Line 119) t = Some proc /\
      event_at (Line 148) t =
        Some (Ev (Line 148) (GetImageEntryPointRva tgt) (hr, rva)) /\
      event_at (Line 278) t =
        Some (Ev (Line 278)
                 (NtQueryInformationProcess proc ProcessBasicInformation)
                 (st, pbi)) /\
      event_at (Line 290) t =
        Some (Ev (Line 290) (ReadProcessMemory proc (PebBaseAddress pbi))
                 (true, peb)) /\
      event_at (Line 309) t =
        Some (Ev (Line 309)
                 (WriteRemoteProcessParameters
                    proc FileName
                    (Add2Ptr pf (PebBaseAddress pbi)
                             (FIELD_OFFSET_PEB_ProcessParameters pf)))
                 hr') /\
      e = Ev (Line 331)
             (NtCreateThreadEx THREAD_ALL_ACCESS proc
                               (Add2Ptr pf (ImageBaseAddress peb) rva)) r.

(** ** C9: the section handle *)

Definition C9_section (t : list Event) (proc : HANDLE) : Prop :=
  exists tgt sec st st',
    event_at (Line 103) t =
      Some (Ev (Line 103)
               (NtCreateSection SECTION_ALL_ACCESS PAGE_READONLY SEC_IMAGE tgt)
               (st, sec)) /\
    event_at (Line 119) t =
      Some (Ev (Line 119)
               (NtCreateProcessEx PROCESS_ALL_ACCESS NtCurrentProcess
                                  PROCESS_CREATE_FLAGS_INHERIT_HANDLES sec)
               (st', proc)) /\
    occurs (Dtor sectionHandle) t = false /\
    (is_valid sec = true ->
     exists pid b,
       after (Line 119) t =
         Ev (Line 137) (GetProcessId proc) pid ::
         Ev (Line 135)
            (LogMessage Log.Information None
                        "Created process object, PID %lu" [ArgNum pid]) tt ::
         Ev (Line 142) (CloseHandle sec) b :: after (Line 142) t) /\
    (sec <> tgt -> sec <> proc ->
     no_stale_use sec (after (Line 142) t) = true).

(** ** C10: the source handle *)

(** The claim as the specification words it: after the source handle is
    closed, the only file handle the later calls work on is the target's. *)
Definition C10_as_stated : Prop :=
  forall pf W (os : Handler W) (w : W) TargetBinary FileName ReplaceWith
         Pattern WaitForProcess HoldHandleExclusive,
    let t := trace os (ExecuteProcess pf TargetBinary FileName ReplaceWith
                                      Pattern WaitForProcess
                                      HoldHandleExclusive) w in
    forall tgt, handle_at (Line 64) t = Some tgt ->
    forall e, In e (after (Line 97) t) ->
    forall h, In h (file_args e) -> h = tgt.

Definition C10_source (TargetBinary : string) (t : list Event) : Prop :=
  exists src tgt b,
    event_at (Line 40) t =
      Some (Ev (Line 40)
               (CreateFileW TargetBinary GENERIC_READ share_all
                            OPEN_EXISTING FILE_ATTRIBUTE_NORMAL) src) /\
    handle_at (Line 64) t = Some tgt /\
    after (Line 82) t =
      Ev (Line 92)
         (LogMessage Log.Information None
                     "Copied source binary to target file" []) tt ::
      Ev (Line 97) (CloseHandle src) b :: after (Line 97) t /\
    occurs (Line 103) (upto (Line 97) t) = false /\
    occurs (Line 103) (after (Line 97) t) = true /\
    occurs (Dtor sourceHandle) t = false /\
    forallb (on_file tgt) (after (Line 97) t) = true /\
    (forall h, In h (flat_map file_args (after (Line 97) t)) ->
               h = tgt \/ handle_at (Line 177) t = Some h) /\
    (src <> tgt -> no_stale_use src (after (Line 97) t) = true).

(** ** Handle accounting *)

(** The handle a call opens: the call succeeded, by the test the function
    applies to it, and handed back a valid handle. *)
Definition opens (e : Event) : option HANDLE :=
  match handle_out e with
  | Some h => if ok e && is_valid h then Some h else None
  | None => None
  end.

Definition closed_by (e : Event) : option HANDLE :=
  match e with
  | Ev _ c _ =>
    match c with
    | CloseHandle h => Some h
    | _ => None
    end
  end.

(** One occurrence of [h] taken out of the open handles; [None] when [h]
    is not among them. *)
Fixpoint take_out (h : HANDLE) (held : list HANDLE) : option (list HANDLE) :=
  match held with
  | [] => None
  | x :: held' =>
    if x =? h then Some held'
    else match take_out h held' with
         | Some l => Some (x :: l)
         | None => None
         end
  end.

(** The handles open after a trace that starts with [held] open; [None]
    when the trace closes a handle that is not open at that point. *)
Fixpoint open_after (held : list HANDLE) (t : list Event)
  : option (list HANDLE) :=
  match t with
  | [] => Some held
  | e :: t' =>
    match closed_by e with
    | Some h =>
      match take_out h held with
      | Some held' => open_after held' t'
      | None => None
      end
    | None =>
      open_after (match opens e with
                  | Some h => h :: held
                  | None => held
                  end) t'
    end
  end.

(** Every valid handle a call is given is open at that point. *)
Fixpoint live_uses (held : list HANDLE) (t : list Event) : bool :=
  match t with
  | [] => true
  | e :: t' =>
    forallb (fun h => negb (is_valid h) || existsb (Z.eqb h) held)
            (handle_args e) &&
    live_uses (match closed_by e with
               | Some h =>
                 match take_out h held with
                 | Some held' => held'
                 | None => held
                 end
               | None =>
                 match opens e with
                 | Some h => h :: held
                 | None => held
                 end
               end) t'
  end.

(** Both at once, with the handle a close takes out left open to choice:
    the form the symbolic execution consumes. *)
Fixpoint accounted (held : list HANDLE) (t : list Event) : Prop :=
  match t with
  | [] => held = []
  | e :: t' =>
    (forall h, In h (handle_args e) -> is_valid h = true -> In h held) /\
    match closed_by e with
    | Some h =>
      exists l1 l2, held = l1 ++ h :: l2 /\ accounted (l1 ++ l2) t'
    | None =>
      accounted (match opens e with
                 | Some h => h :: held
                 | None => held
                 end) t'
    end
  end.

(** ** Failures and what follows them *)

(** A failed call the function carries on after: the copy of the
    replacement failing with the mapped-file condition (line 202), and the
    two steps of the fallback (lines 236 and 246). *)
Definition tolerated (e : Event) : bool :=
  match e with
  | Ev s c x =>
    match c in Call T return T -> bool with
    | CopyFileByHandle _ _ => fun hr => user_mapped_copy s hr
    | OverwriteFileAfterWithPattern _ _ _ => fun _ => true
    | ExtendFileSecurityDirectory _ _ => fun _ => true
    | _ => fun _ => false
    end x
  end.

(** A failure the function checks for and does not carry on after: the call
    is one whose result the function tests, and it fails that test (an
    invalid handle from [CreateFileW], an [NTSTATUS] that is not a success
    from a native call, [FALSE] from [ReadProcessMemory], a failed [HRESULT]
    from a helper).  The function does not test what [CloseHandle],
    [GetProcessId], [GetThreadId], [TerminateProcess], [WaitForSingleObject]
    and [GetExitCodeProcess] answer, nor [GetLastError]: no answer of theirs
    is a failure in this sense, and the function carries on after them
    whatever they answer. *)
Definition failure (e : Event) : bool := negb (ok e) && negb (tolerated e).

(** Reporting an error and cleaning up: reading the last error, an entry of
    level [Error] in the log, closing a handle, terminating the process. *)
Definition reports_or_cleans (e : Event) : bool :=
  match e with
  | Ev _ c _ =>
    match c with
    | GetLastError => true
    | LogMessage Log.Error _ _ _ => true
    | CloseHandle _ => true
    | TerminateProcess _ _ => true
    | _ => false
    end
  end.

Definition goes_on (e : Event) : bool := negb (reports_or_cleans e).

(** ** The log *)

Definition Level_eqb (a b : Log.Level) : bool :=
  match a, b with
  | Log.Success, Log.Success | Log.Information, Log.Information
  | Log.Warning, Log.Warning | Log.Error, Log.Error => true
  | _, _ => false
  end.

(** The level and code of a log entry. *)
Definition log_entry (e : Event) : option (Log.Level * option Z) :=
  match e with
  | Ev _ c _ =>
    match c with
    | LogMessage level code _ _ => Some (level, code)
    | _ => None
    end
  end.

(** An entry of level [Error] or [Warning]. *)
Definition alarm (e : Event) : bool :=
  match log_entry e with
  | Some (Log.Error, _) | Some (Log.Warning, _) => true
  | _ => false
  end.

(** The last error a call reads. *)
Definition last_error_read (e : Event) : option DWORD :=
  match e with
  | Ev _ c x =>
    match c in Call T return T -> option DWORD with
    | GetLastError => fun code => Some code
    | _ => fun _ => None
    end x
  end.

(** What has to come next in the log. *)
Inductive Pending :=
| Nothing
| LastError                            (* the last error is read next *)
| Entry (level : Log.Level) (code : Z). (* this entry is written next *)

(** What the outcome of a call calls for.  A Win32 call that failed
    ([CreateFileW] handing back an invalid handle, [ReadProcessMemory]
    answering [FALSE]): the last error is read, then logged at level
    [Error].  A failed step of the fallback: an entry of level [Warning]
    with its [HRESULT].  Any other call that fails the function's test and
    that the function does not carry on after: an entry of level [Error]
    with its status. *)
Definition calls_for (e : Event) : Pending :=
  match e with
  | Ev s c x =>
    match c in Call T return T -> Pending with
    | CreateFileW _ _ _ _ _ =>
      fun h => if is_valid h then Nothing else LastError
    | ReadProcessMemory _ _ =>
      fun r => if fst r then Nothing else LastError
    | OverwriteFileAfterWithPattern _ _ _ =>
      fun r => if FAILED (fst r) then Entry Log.Warning (fst r) else Nothing
    | ExtendFileSecurityDirectory _ _ =>
      fun hr => if FAILED hr then Entry Log.Warning hr else Nothing
    | _ =>
      fun _ => if failure e
               then match status e with
                    | Some code => Entry Log.Error code
                    | None => Nothing
                    end
               else Nothing
    end x
  end.

(** Every outcome that calls for a log entry is followed at once by that
    entry (after a failed Win32 call: by the read of the last error, and
    that by the entry with the value read), and the log has no other entry
    of level [Error] or [Warning]. *)
Fixpoint reported (pending : Pending) (t : list Event) : Prop :=
  match t with
  | [] => pending = Nothing
  | e :: t' =>
    match pending with
    | Entry level code =>
      log_entry e = Some (level, Some code) /\ reported Nothing t'
    | LastError =>
      match last_error_read e with
      | Some code => reported (Entry Log.Error code) t'
      | None => False
      end
    | Nothing => alarm e = false /\ reported (calls_for e) t'
    end
  end.

(** ** The files opened *)

(** The arguments of a [CreateFileW]: name, access, share mode, creation
    disposition, attributes. *)
Definition opened_file (e : Event) : option (string * Z * Z * Z * Z) :=
  match e with
  | Ev _ c _ =>
    match c with
    | CreateFileW name access share disposition attributes =>
      Some (name, access, share, disposition, attributes)
    | _ => None
    end
  end.

Fixpoint files_opened (t : list Event) : list (string * Z * Z * Z * Z) :=
  match t with
  | [] => []
  | e :: t' =>
    match opened_file e with
    | Some f => f :: files_opened t'
    | None => files_opened t'
    end
  end.

Definition files_to_open (TargetBinary FileName : string)
           (ReplaceWith : option string) (HoldHandleExclusive : bool)
  : list (string * Z * Z * Z * Z) :=
  [(TargetBinary, GENERIC_READ, share_all, OPEN_EXISTING,
    FILE_ATTRIBUTE_NORMAL);
   (FileName, Z.lor GENERIC_READ GENERIC_WRITE,
    if HoldHandleExclusive then 0 else share_all, CREATE_ALWAYS,
    FILE_ATTRIBUTE_NORMAL)] ++
  match ReplaceWith with
  | Some path =>
    [(path, GENERIC_READ, share_all, OPEN_EXISTING, FILE_ATTRIBUTE_NORMAL)]
  | None => []
  end.

(** ** What the log shows *)

(** The number reported by the log entry written at line [n]. *)
Definition logged_number (n : Z) (t : list Event) : option Z :=
  match event_at (Line n) t with
  | Some (Ev _ c _) =>
    match c with
    | LogMessage _ _ _ [ArgNum v] => Some v
    | _ => None
    end
  | None => None
  end.

(** Each number in the log is the one the function got or used: the process
    id (line 135), the entry point's RVA (158), the address of the remote
    process parameters (305), the thread's start address (326), the thread
    id (349), the exit code (379). *)
Definition log_values (t : list Event) : Prop :=
  (forall v, logged_number 135 t = Some v ->
     exists proc,
       handle_at (Line 119) t = Some proc /\
       event_at (Line 137) t = Some (Ev (Line 137) (GetProcessId proc) v)) /\
  (forall v, logged_number 158 t = Some v ->
     exists tgt hr,
       handle_at (Line 64) t = Some tgt /\
       event_at (Line 148) t =
         Some (Ev (Line 148) (GetImageEntryPointRva tgt) (hr, v))) /\
  (forall v, logged_number 305 t = Some v ->
     exists proc name hr,
       event_at (Line 309) t =
         Some (Ev (Line 309) (WriteRemoteProcessParameters proc name v) hr)) /\
  (forall v, logged_number 326 t = Some v ->
     exists proc r,
       event_at (Line 331) t =
         Some (Ev (Line 331) (NtCreateThreadEx THREAD_ALL_ACCESS proc v) r)) /\
  (forall v, logged_number 349 t = Some v ->
     exists thr,
       handle_at (Line 331) t = Some thr /\
       event_at (Line 351) t = Some (Ev (Line 351) (GetThreadId thr) v)) /\
  (forall v, logged_number 379 t = Some v ->
     exists proc b,
       handle_at (Line 119) t = Some proc /\
       event_at (Line 377) t =
         Some (Ev (Line 377) (GetExitCodeProcess proc) (b, v))).

(** ** Entering the fallback *)

(** The copy of the replacement failed with the mapped-file condition. *)
Definition mapped_file_failure (e : Event) : bool :=
  match e with
  | Ev s c x =>
    match c in Call T return T -> bool with
    | CopyFileByHandle _ _ => fun hr => user_mapped_copy s hr
    | _ => fun _ => false
    end x
  end.

(** The calls of the fallback (lines 217-252). *)
Definition fallback_step (e : Event) : bool :=
  match site e with
  | Line n => (217 <=? n) && (n <=? 252)
  | Dtor _ => false
  end.

(** A call that is given the filler pattern. *)
Definition takes_pattern (e : Event) : bool :=
  match e with
  | Ev _ c _ =>
    match c with
    | OverwriteFileAfterWithPattern _ _ _ => true
    | OverwriteFileContentsWithPattern _ _ => true
    | _ => false
    end
  end.

(** ** Kinds of objects *)

Inductive Kind := File | Section | Process | Thread.

(** The object a successful call creates, with its kind. *)
Definition gives (e : Event) : option (Kind * HANDLE) :=
  if ok e
  then match e with
       | Ev _ c x =>
         match c in Call T return T -> option (Kind * HANDLE) with
         | CreateFileW _ _ _ _ _ => fun h => Some (File, h)
         | NtCreateSection _ _ _ _ => fun r => Some (Section, snd r)
         | NtCreateProcessEx _ _ _ _ => fun r => Some (Process, snd r)
         | NtCreateThreadEx _ _ _ => fun r => Some (Thread, snd r)
         | _ => fun _ => None
         end x
       end
  else None.

(** The handles a call works on, each with the kind of object its parameter
    stands for.  [CloseHandle] and [WaitForSingleObject] take a handle of
    any kind. *)
Definition wants (e : Event) : list (Kind * HANDLE) :=
  match e with
  | Ev _ c _ =>
    match c with
    | NtCreateSection _ _ _ f => [(File, f)]
    | NtCreateProcessEx _ parent _ sec => [(Process, parent); (Section, sec)]
    | GetProcessId p => [(Process, p)]
    | NtQueryInformationProcess p _ => [(Process, p)]
    | ReadProcessMemory p _ => [(Process, p)]
    | NtCreateThreadEx _ p _ => [(Process, p)]
    | GetThreadId th => [(Thread, th)]
    | TerminateProcess p _ => [(Process, p)]
    | GetExitCodeProcess p => [(Process, p)]
    | CopyFileByHandle src dst => [(File, src); (File, dst)]
    | GetImageEntryPointRva f => [(File, f)]
    | GetFileSize f => [(File, f)]
    | OverwriteFileAfterWithPattern f _ _ => [(File, f)]
    | ExtendFileSecurityDirectory f _ => [(File, f)]
    | OverwriteFileContentsWithPattern f _ => [(File, f)]
    | WriteRemoteProcessParameters p _ _ => [(Process, p)]
    | _ => []
    end
  end.

(** Every valid handle a call works on is an object of the parameter's
    kind that an earlier successful call of this run created. *)
Fixpoint well_kinded (given : list (Kind * HANDLE)) (t : list Event) : Prop :=
  match t with
  | [] => True
  | e :: t' =>
    (forall k h, In (k, h) (wants e) -> is_valid h = true ->
                 In (k, h) given) /\
    well_kinded (match gives e with
                 | Some g => g :: given
                 | None => given
                 end) t'
  end.

(** ** A concrete environment

    A scripted operating system for evaluating the function on concrete
    runs: handles are handed out in sequence, every call succeeds unless a
    knob says otherwise. *)
Module Scenario.

Record Knobs := {
  replacement_copy : HRESULT;
  replacement_size : HRESULT;
  hide_tail : HRESULT;
  extend_directory : HRESULT;
  pattern_overwrite : HRESULT;
  exit_code : DWORD
}.

Record World := { knobs : Knobs; next : HANDLE; copies : nat }.

Definition fresh (w : World) : HANDLE * World :=
  (next w, {| knobs := knobs w; next := next w + 4; copies := copies w |}).

Definition copied (w : World) : World :=
  {| knobs := knobs w; next := next w; copies := S (copies w) |}.

Definition os : Handler World :=
  fun T c w =>
    match c in Call T return T * World with
    | CreateFileW _ _ _ _ _ => fresh w
    | GetLastError => (5, w)
    | CloseHandle _ => (true, w)
    | NtCreateSection _ _ _ _ => let (h, w') := fresh w in ((0, h), w')
    | NtCreateProcessEx _ _ _ _ => let (h, w') := fresh w in ((0, h), w')
    | GetProcessId _ => (4242, w)
    | NtQueryInformationProcess _ _ => ((0, {| PebBaseAddress := 0x7FF000 |}), w)
    | ReadProcessMemory _ _ =>
      ((true, {| ImageBaseAddress := 0x140000000 |}), w)
    | NtCreateThreadEx _ _ _ => let (h, w') := fresh w in ((0, h), w')
    | GetThreadId _ => (4243, w)
    | TerminateProcess _ _ => (true, w)
    | WaitForSingleObject _ _ => (0, w)
    | GetExitCodeProcess _ => ((true, exit_code (knobs w)), w)
    | CopyFileByHandle _ _ =>
      (match copies w with
       | O => S_OK
       | S _ => replacement_copy (knobs w)
       end, copied w)
    | GetImageEntryPointRva _ => ((S_OK, 0x1000), w)
    | GetFileSize _ => ((replacement_size (knobs w), 512), w)
    | OverwriteFileAfterWithPattern _ _ _ => ((hide_tail (knobs w), 1024), w)
    | ExtendFileSecurityDirectory _ _ => (extend_directory (knobs w), w)
    | OverwriteFileContentsWithPattern _ _ => (pattern_overwrite (knobs w), w)
    | WriteRemoteProcessParameters _ _ _ => (S_OK, w)
    | LogMessage _ _ _ _ => (tt, w)
    end.

Definition E_FAIL : HRESULT := to_int32 0x80004005.

Definition nominal : Knobs :=
  {| replacement_copy := S_OK; replacement_size := S_OK; hide_tail := S_OK;
     extend_directory := S_OK; pattern_overwrite := S_OK; exit_code := 0 |}.

(** The pattern overwrite fails. *)
Definition failing_overwrite : Knobs :=
  {| replacement_copy := S_OK; replacement_size := S_OK; hide_tail := S_OK;
     extend_directory := S_OK; pattern_overwrite := E_FAIL; exit_code := 0 |}.

(** The replacement cannot truncate the mapped target, and its size cannot
    be read. *)
Definition unreadable_size : Knobs :=
  {| replacement_copy := HRESULT_FROM_WIN32 ERROR_USER_MAPPED_FILE;
     replacement_size := E_FAIL; hide_tail := S_OK;
     extend_directory := S_OK; pattern_overwrite := S_OK; exit_code := 0 |}.

(** The replacement cannot truncate the mapped target, and hiding the tail
    fails. *)
Definition failing_hide : Knobs :=
  {| replacement_copy := HRESULT_FROM_WIN32 ERROR_USER_MAPPED_FILE;
     replacement_size := S_OK; hide_tail := E_FAIL;
     extend_directory := S_OK; pattern_overwrite := S_OK; exit_code := 0 |}.

(** The target process exits with code 7. *)
Definition exits_with_7 : Knobs :=
  {| replacement_copy := S_OK; replacement_size := S_OK; hide_tail := S_OK;
     extend_directory := S_OK; pattern_overwrite := S_OK; exit_code := 7 |}.

Definition boot (k : Knobs) : World :=
  {| knobs := k; next := 0x100; copies := O |}.

(** A 64-bit platform: [HRESULT_FROM_NT] and [HRESULT_FROM_WIN32] for the
    return macros, pointers modulo 2^64, the x64 layout of [PEB]. *)
Definition x64 : Platform :=
  {| NtStatusToHr := fun st =>
       if NT_SUCCESS st then S_OK else to_int32 (Z.lor st 0x10000000);
     GetLastErrorFailHr := fun e =>
       HRESULT_FROM_WIN32 (if e =? 0 then 668 else e);
     Add2Ptr := fun p x => (p + x) mod 2 ^ 64;
     FIELD_OFFSET_PEB_ProcessParameters := 0x20 |}.

Definition pattern : list byte := [x00].

(** calc.exe herpaderped into decoy.bin, overwritten with the pattern. *)
Definition pattern_run (wait excl : bool) : Prog HRESULT :=
  ExecuteProcess x64 "calc.exe" "decoy.bin" None pattern wait excl.

(** calc.exe herpaderped into decoy.bin, replaced with notepad.exe. *)
Definition replace_run (wait excl : bool) : Prog HRESULT :=
  ExecuteProcess x64 "calc.exe" "decoy.bin" (Some "notepad.exe") pattern
                 wait excl.

End Scenario.

(** An environment in which no file can be opened, and in which the last
    error is 2 when first read and 5 from then on.  Its state counts the
    reads of the last error. *)
Module Unopenable.

Definition os : Handler nat :=
  fun T c n =>
    match c in Call T return T * nat with
    | CreateFileW _ _ _ _ _ => (INVALID_HANDLE_VALUE, n)
    | GetLastError => (match n with O => 2 | S _ => 5 end, S n)
    | c' => (fst (Scenario.os _ c' (Scenario.boot Scenario.nominal)), n)
    end.

End Unopenable.

(** * Proofs *)

(** ** Adequacy of [sat] and of the trace checks *)

Lemma run_sat {W R} (os : Handler W) (p : Prog R) :
  forall (Q : list Event -> R -> Prop) (w : W),
    sat p Q -> Q (trace os p w) (result os p w).
Proof.
  unfold trace, result.
  induction p as [r | s T c k IH]; intros Q w H; simpl in *.
  - exact H.
  - destruct (os T c w) as [x w1] eqn:E.
    specialize (IH x _ w1 (H x)).
    destruct (run os (k x) w1) as [[r w2] t]. simpl in *. exact IH.
Qed.

Lemma precedes_b_sound P Q t :
  precedes_b P Q false t = true -> precedes P Q t.
Proof.
  unfold precedes. induction t as [|a t IH]; intros H pre e post E HQ.
  - destruct pre; discriminate.
  - simpl in H. apply andb_prop in H. destruct H as [H1 H2].
    rewrite orb_false_r in H1, H2.
    destruct pre as [|b pre]; simpl in E; injection E as -> ->.
    + rewrite HQ in H1. discriminate.
    + destruct (P b) eqn:HP.
      * exists b. split; [left; reflexivity | exact HP].
      * destruct (IH H2 pre e post eq_refl HQ) as (e' & Hin & HP').
        exists e'. split; [right; exact Hin | exact HP'].
Qed.

Lemma never_after_b_seen P Q t :
  never_after_b P Q true t = true -> forall e, In e t -> Q e = false.
Proof.
  induction t as [|a t IH]; simpl; intros H e Hin; [contradiction|].
  apply andb_prop in H. destruct H as [H1 H2].
  rewrite orb_false_r in H1. rewrite orb_true_r in H2.
  destruct Hin as [<- | Hin].
  - destruct (Q a); [discriminate | reflexivity].
  - exact (IH H2 e Hin).
Qed.

Lemma never_after_b_sound P Q t :
  never_after_b P Q false t = true -> never_after P Q t.
Proof.
  unfold never_after. induction t as [|a t IH]; intros H pre e post E HP e' Hin.
  - destruct pre; discriminate.
  - simpl in H. apply andb_prop in H. destruct H as [_ H2].
    rewrite orb_false_r in H2.
    destruct pre as [|b pre]; simpl in E; injection E as -> ->.
    + rewrite HP in H2. exact (never_after_b_seen P Q post H2 e' Hin).
    + destruct (P b) eqn:HPb.
      * apply (never_after_b_seen P Q _ H2). apply in_or_app. right. right. exact Hin.
      * exact (IH H2 pre e post eq_refl HP e' Hin).
Qed.

Lemma absent_b_sound Q t : absent_b Q t = true -> absent Q t.
Proof.
  unfold absent, absent_b. intros H e Hin.
  rewrite forallb_forall in H. specialize (H e Hin).
  destruct (Q e); [discriminate | reflexivity].
Qed.

Lemma is_valid_NULL : is_valid NULL = false.
Proof. reflexivity. Qed.

Lemma is_valid_spec h :
  is_valid h = true -> h <> NULL /\ h <> INVALID_HANDLE_VALUE.
Proof.
  unfold is_valid. intro H. apply andb_prop in H. destruct H as [H1 H2].
  apply negb_true_iff in H1, H2. apply Z.eqb_neq in H1, H2. auto.
Qed.

(** ** Soundness of the handle accounting *)

Lemma take_out_In h l :
  In h l -> exists l', take_out h l = Some l' /\ Permutation l (h :: l').
Proof.
  induction l as [|x l IH]; simpl; intro H; [contradiction|].
  destruct (Z.eqb_spec x h) as [-> | N].
  - exists l. split; [reflexivity | apply Permutation_refl].
  - destruct H as [E | H]; [contradiction|].
    destruct (IH H) as (l' & -> & P).
    exists (x :: l'). split; [reflexivity|].
    apply perm_trans with (x :: h :: l').
    + apply perm_skip. exact P.
    + apply perm_swap.
Qed.

Lemma take_out_split h l1 l2 held :
  Permutation (l1 ++ h :: l2) held ->
  exists l', take_out h held = Some l' /\ Permutation (l1 ++ l2) l'.
Proof.
  intro P.
  assert (I : In h held).
  { apply (Permutation_in h P). apply in_or_app. right. left. reflexivity. }
  destruct (take_out_In h held I) as (l' & E & P').
  exists l'. split; [exact E|].
  apply Permutation_cons_inv with h.
  apply perm_trans with (l1 ++ h :: l2); [apply Permutation_middle|].
  apply perm_trans with held; assumption.
Qed.

Lemma live_held h held held' :
  In h held -> Permutation held held' -> existsb (Z.eqb h) held' = true.
Proof.
  intros I P. apply existsb_exists. exists h.
  split; [exact (Permutation_in h P I) | apply Z.eqb_refl].
Qed.

Lemma accounted_sound t :
  forall held held',
    accounted held t -> Permutation held held' ->
    open_after held' t = Some [] /\ live_uses held' t = true.
Proof.
  induction t as [|e t IH]; intros held held' A P.
  - simpl in A. subst held. apply Permutation_nil in P. subst held'.
    split; reflexivity.
  - destruct A as [U A].
    assert (L : forallb (fun h => negb (is_valid h) || existsb (Z.eqb h) held')
                        (handle_args e) = true).
    { apply forallb_forall. intros h I.
      destruct (is_valid h) eqn:V; [|reflexivity].
      simpl. exact (live_held h held held' (U h I V) P). }
    cbn [open_after live_uses]. rewrite L. simpl andb.
    destruct (closed_by e) as [h|].
    + destruct A as (l1 & l2 & E & A). subst held.
      destruct (take_out_split h l1 l2 held' P) as (l' & -> & P').
      exact (IH _ _ A P').
    + apply (IH _ _ A).
      destruct (opens e); [apply perm_skip|]; exact P.
Qed.

(** ** Concrete runs

    The function evaluated in the scripted environment. *)

Example pattern_run_sites :
  map site (trace Scenario.os (Scenario.pattern_run true false)
                  (Scenario.boot Scenario.nominal)) =
  [Line 33; Line 34; Line 40; Line 64; Line 82; Line 92; Line 97; Line 103;
   Line 117; Line 119; Line 137; Line 135; Line 142; Line 148; Line 158;
   Line 260; Line 262; Line 275; Line 278; Line 290; Line 305; Line 309;
   Line 326; Line 331; Line 351; Line 349; Line 364; Line 372; Line 374;
   Line 377; Line 379; Dtor threadHandle; Dtor processHandle].
Proof. vm_compute. reflexivity. Qed.

Example failing_overwrite_sites :
  map site (trace Scenario.os (Scenario.pattern_run false true)
                  (Scenario.boot Scenario.failing_overwrite)) =
  [Line 33; Line 34; Line 40; Line 58; Line 64; Line 82; Line 92; Line 97;
   Line 103; Line 117; Line 119; Line 137; Line 135; Line 142; Line 148;
   Line 158; Line 260; Line 262; Line 266; Dtor targetHandle; Line 29;
   Dtor processHandle] /\
  result Scenario.os (Scenario.pattern_run false true)
         (Scenario.boot Scenario.failing_overwrite) = Scenario.E_FAIL.
Proof. split; vm_compute; reflexivity. Qed.

Example failing_hide_calls :
  map (fun e => (site e, handle_args e))
      (filter (fun e => negb (at_site (Line 0) e) &&
                        match handle_args e with [] => false | _ => true end)
              (trace Scenario.os (Scenario.replace_run false false)
                     (Scenario.boot Scenario.failing_hide))) =
  [(Line 82, [256; 260]); (Line 97, [256]); (Line 103, [260]);
   (Line 119, [-1; 264]); (Line 137, [268]); (Line 142, [264]);
   (Line 148, [260]); (Line 198, [272; 260]); (Line 222, [272]);
   (Line 232, [260]); (Dtor replaceWithHandle, [272]); (Line 278, [268]);
   (Line 290, [268]); (Line 309, [268]); (Line 331, [268]);
   (Line 351, [276]); (Line 364, [260]); (Dtor threadHandle, [276]);
   (Dtor processHandle, [268])].
Proof. vm_compute. reflexivity. Qed.

Example open_at_bootstrap :
  open_after [] (upto (Line 275)
                      (trace Scenario.os (Scenario.replace_run false false)
                             (Scenario.boot Scenario.failing_hide))) =
  Some [268; 260].
Proof. vm_compute. reflexivity. Qed.

Example unreadable_size_log :
  map log_entry
      (filter alarm (trace Scenario.os (Scenario.replace_run false false)
                           (Scenario.boot Scenario.unreadable_size))) =
  [Some (Log.Error, Some Scenario.E_FAIL)] /\
  files_opened (trace Scenario.os (Scenario.replace_run false false)
                      (Scenario.boot Scenario.unreadable_size)) =
  files_to_open "calc.exe" "decoy.bin" (Some "notepad.exe") false.
Proof. split; vm_compute; reflexivity. Qed.

Example unopenable_run :
  map (fun e => (site e, last_error_read e, log_entry e))
      (trace Unopenable.os (Scenario.pattern_run false false) O) =
  [(Line 33, None, Some (Log.Success, None));
   (Line 34, None, Some (Log.Success, None));
   (Line 40, None, None);
   (Line 51, Some 2, None);
   (Line 51, None, Some (Log.Error, Some 2));
   (Line 52, Some 5, None)] /\
  result Unopenable.os (Scenario.pattern_run false false) O =
  HRESULT_FROM_WIN32 5.
Proof. split; vm_compute; reflexivity. Qed.

(** ** Symbolic execution of the function

    [exec] walks every path of [ExecuteProcess]: it reduces the program to
    its next call, introduces the answer, lets the postcondition consume the
    event, and splits on each test of an answer the program makes.  The
    literals of the log messages play no part and are generalised first. *)

Arguments is_valid : simpl never.
Arguments FAILED : simpl never.
Arguments NT_SUCCESS : simpl never.
Arguments HRESULT_FROM_WIN32 : simpl never.
Arguments when !b m /.
Arguments is_fatal pf e /.
Arguments fatal pf !e /.

Ltac forget_literals :=
  repeat match goal with
         | |- context [String ?a ?s] =>
           let m := fresh "msg" in set (m := String a s); clearbody m
         end.

Ltac split_on b :=
  first [ match goal with H : b = _ |- _ => rewrite H end
        | destruct b eqn:? ].

Ltac head_of p :=
  eval lazy head beta iota zeta
       delta -[is_valid FAILED NT_SUCCESS HRESULT_FROM_WIN32 Z.eqb] in p.

Ltac test_on f a :=
  let a' := eval cbn in a in
  change (f a) with (f a');
  split_on (f a').

Ltac blocked :=
  match goal with
  | |- context [is_valid ?a] =>
    let a' := eval cbn in a in
    lazymatch a' with
    | NULL => change (is_valid a) with false
    | _ => change (is_valid a) with (is_valid a'); split_on (is_valid a')
    end
  | |- context [FAILED ?a] => test_on FAILED a
  | |- context [NT_SUCCESS ?a] => test_on NT_SUCCESS a
  | |- context [Z.eqb ?a ?c] =>
    let a' := eval cbn in a in
    let c' := eval cbn in c in
    change (Z.eqb a c) with (Z.eqb a' c'); split_on (Z.eqb a' c')
  | |- context [match ?o with Some _ => _ | None => _ end] =>
    is_var o; destruct o eqn:?
  | |- context [match ?b with true => _ | false => _ end] =>
    is_var b; destruct b eqn:?
  end.

Ltac exec1 :=
  lazymatch goal with
  | |- sat ?p ?q =>
    let p' := head_of p in
    lazymatch p' with
    | Vis ?s ?c ?k =>
      change (forall x, sat (k x) (fun t r => q (Ev s c x :: t) r));
      let x := fresh "x" in
      intro x;
      lazymatch type of x with
      | prod _ _ => destruct x as [? ?]
      | unit => destruct x
      | _ => idtac
      end;
      lazymatch goal with
      | |- sat ?p1 ?q1 =>
        let q1' := eval cbn in q1 in change (sat p1 q1')
      end
    | Ret ?r => change (q [] r); cbn
    | _ => change (sat p' q); blocked
    end
  end.

Ltac exec :=
  unfold ExecuteProcess, body, substitute, unwind;
  forget_literals;
  repeat exec1.

(** ** Closing the paths *)

Ltac tidy :=
  repeat match goal with
         | H : (_ =? _) = true |- _ => apply Z.eqb_eq in H
         | H : (_ =? _) = false |- _ => apply Z.eqb_neq in H
         | H : Some _ = Some _ |- _ => injection H as H; try subst
         | H : None = Some _ |- _ => discriminate H
         | H : Some _ = None |- _ => discriminate H
         | H : false = true |- _ => discriminate H
         | H : true = false |- _ => discriminate H
         | H : False |- _ => contradiction
         | H : _ \/ _ |- _ => destruct H; try subst
         | H : _ /\ _ |- _ => destruct H
         end.

Ltac absurd :=
  match goal with
  | H : ?a <> ?a |- _ => exfalso; exact (H eq_refl)
  | H : ?a <> ?b, E : ?a = ?b |- _ => exfalso; exact (H E)
  | H : ?a <> ?b, E : ?b = ?a |- _ => exfalso; exact (H (eq_sym E))
  | H1 : ?b = true, H2 : ?b = false |- _ =>
    exfalso; rewrite H1 in H2; discriminate H2
  end.

Ltac known :=
  match goal with
  | H : ?b = _ |- context [if ?b then _ else _] => rewrite H
  end.

Ltac rew_known :=
  repeat match goal with
         | H : ?b = ?v |- context [?b] =>
           lazymatch b with
           | true => fail
           | false => fail
           | _ => lazymatch v with
                  | true => rewrite H
                  | false => rewrite H
                  end
           end
         end.

Ltac valid_facts :=
  repeat match goal with
         | H : is_valid ?h = true |- _ =>
           lazymatch goal with
           | _ : h <> NULL |- _ => fail
           | _ => pose proof (is_valid_spec h H) as [? ?]
           end
         end.

Ltac absurd_neq :=
  match goal with
  | H : ?a <> ?b |- _ => exfalso; apply H; reflexivity
  end.

(** Goals about handle values: split on the comparisons. *)
Ltac handles :=
  valid_facts; rew_known; cbn;
  repeat match goal with
         | |- ?x = ?x => reflexivity
         | |- context [Z.eqb ?a ?a] => rewrite Z.eqb_refl; cbn
         | |- context [Z.eqb ?a ?b] =>
           destruct (Z.eqb_spec a b); [ subst | ]; try absurd_neq; cbn
         end.

Ltac leaf :=
  repeat match goal with
         | |- _ /\ _ => split
         | |- forall _, _ => intro; tidy; try absurd
         | |- exists _, _ => eexists
         | |- context [Z.eqb _ _] => solve [handles]
         | |- _ = _ =>
           first [reflexivity | eassumption | congruence
                 | rew_known; cbn; reflexivity]
         | |- True => exact I
         | |- _ \/ _ => first [left; reflexivity | right; reflexivity]
         | |- terminated _ _ => unfold terminated
         | |- warning_logged _ _ _ _ => unfold warning_logged
         | |- _ => known
         end.

(** ** The function against each property *)

Lemma order_sat pf tb fn rw pat wait excl :
  sat (ExecuteProcess pf tb fn rw pat wait excl)
      (fun t _ => C1_order t = true /\ C1_flow tb fn t).
Proof. unfold C1_order, C1_flow, pinned, substitutes. exec; leaf. Qed.

Lemma guard_sat pf tb fn rw pat wait excl :
  sat (ExecuteProcess pf tb fn rw pat wait excl) (C2_guard pf).
Proof. unfold C2_guard. exec; leaf. Qed.

Lemma fallback_sat pf tb fn path pat wait excl :
  sat (ExecuteProcess pf tb fn (Some path) pat wait excl)
      (fun t r =>
         forall hr, status_at (Line 198) t = Some hr ->
                    FAILED hr = true -> C3_fallback pat t r hr).
Proof. unfold C3_fallback, USER_MAPPED. exec; leaf. Qed.

Lemma pattern_sat pf tb fn pat wait excl :
  sat (ExecuteProcess pf tb fn None pat wait excl)
      (fun t r => ok_at (Line 148) t = true -> C4_pattern pat t r).
Proof. unfold C4_pattern. exec; leaf. Qed.

Lemma wait_sat pf tb fn rw pat wait excl :
  sat (ExecuteProcess pf tb fn rw pat wait excl)
      (fun t r => thread_created t = true -> C5_wait wait t r).
Proof. unfold C5_wait. exec; leaf. Qed.

Lemma tail_sat pf tb fn rw pat wait excl :
  sat (ExecuteProcess pf tb fn rw pat wait excl)
      (fun t r => thread_created t = true -> C6_tail wait excl t).
Proof. unfold C6_tail, tail_sites. exec; leaf. Qed.

Lemma bootstrap_sat pf tb fn rw pat wait excl :
  sat (ExecuteProcess pf tb fn rw pat wait excl)
      (fun t r => C8_order t = true /\ C8_flow pf fn t).
Proof. unfold C8_order, C8_flow. exec; leaf. Qed.

Lemma section_sat pf tb fn rw pat wait excl :
  sat (ExecuteProcess pf tb fn rw pat wait excl)
      (fun t r => forall proc, created_at (Line 119) t = Some proc ->
                               C9_section t proc).
Proof. unfold C9_section. exec; leaf. Qed.

Lemma source_sat pf tb fn rw pat wait excl :
  sat (ExecuteProcess pf tb fn rw pat wait excl)
      (fun t r => ok_at (Line 82) t = true -> C10_source tb t).
Proof. unfold C10_source. exec; leaf. Qed.

(** Handle accounting: a close takes out the open handle of the same name;
    a use of a handle known to be invalid needs no open handle. *)
Ltac take h acc l :=
  lazymatch l with
  | ?x :: ?l' =>
    first [ constr_eq x h; exists acc, l'; split; [reflexivity | cbn]
          | take h (acc ++ [x]) l' ]
  end.

Ltac invalid :=
  match goal with
  | H : is_valid ?h = true, H' : is_valid ?h = false |- _ =>
    exfalso; rewrite H in H'; discriminate H'
  | H : is_valid ?h = true |- _ =>
    exfalso; vm_compute in H; discriminate H
  end.

Ltac account :=
  repeat match goal with
         | |- _ /\ _ => split
         | |- forall _, _ => intro
         | H : _ \/ _ |- _ => destruct H
         | H : False |- _ => contradiction
         | H : ?a = ?h |- _ => is_var h; subst h
         | |- exists l1 l2, ?held = l1 ++ ?h :: l2 /\ _ =>
           take h (@nil HANDLE) held
         | |- ?a = ?a => reflexivity
         | |- _ \/ _ =>
           first [ solve [repeat first [left; reflexivity | right]] | invalid ]
         | |- False => invalid
         end.

Ltac kinds :=
  repeat match goal with
         | |- _ /\ _ => split
         | |- True => exact I
         | |- forall _, _ => intro
         | H : _ \/ _ |- _ => destruct H
         | H : False |- _ => contradiction
         | H : (_, _) = (_, _) |- _ => injection H as <- <-
         | |- _ \/ _ =>
           first [ solve [repeat first [left; reflexivity | right]] | invalid ]
         | |- False => invalid
         end.

Ltac prefix :=
  first [ exists 0%nat; reflexivity | exists 1%nat; reflexivity
        | exists 2%nat; reflexivity | exists 3%nat; reflexivity ].

Arguments failure e /.
Arguments goes_on e /.
Arguments gives e /.

Lemma accounted_sat pf tb fn rw pat wait excl :
  sat (ExecuteProcess pf tb fn rw pat wait excl) (fun t _ => accounted [] t).
Proof. exec; account. Qed.

Lemma failstop_sat pf tb fn rw pat wait excl :
  sat (ExecuteProcess pf tb fn rw pat wait excl)
      (fun t _ => never_after_b failure goes_on false t = true).
Proof. exec; leaf. Qed.

Lemma reported_sat pf tb fn rw pat wait excl :
  sat (ExecuteProcess pf tb fn rw pat wait excl)
      (fun t _ => reported Nothing t).
Proof. exec; leaf. Qed.

Lemma files_sat pf tb fn rw pat wait excl :
  sat (ExecuteProcess pf tb fn rw pat wait excl)
      (fun t _ =>
         (exists n, files_opened t = firstn n (files_to_open tb fn rw excl)) /\
         (occurs (Line 275) t = true ->
          files_opened t = files_to_open tb fn rw excl)).
Proof.
  unfold files_to_open. exec.
  all: split; [prefix | intro; first [discriminate | reflexivity]].
Qed.

Lemma log_values_sat pf tb fn rw pat wait excl :
  sat (ExecuteProcess pf tb fn rw pat wait excl) (fun t _ => log_values t).
Proof. unfold log_values, logged_number. exec; leaf. Qed.

Lemma fallback_entry_sat pf tb fn path pat wait excl :
  sat (ExecuteProcess pf tb fn (Some path) pat wait excl)
      (fun t _ =>
         precedes_b mapped_file_failure (either fallback_step takes_pattern)
                    false t = true).
Proof. unfold either. exec; leaf. Qed.

Lemma kinds_sat pf tb fn rw pat wait excl :
  sat (ExecuteProcess pf tb fn rw pat wait excl) (fun t _ => well_kinded [] t).
Proof. exec; kinds. Qed.

(** * The claims *)

Ltac booleans H :=
  repeat match type of H with
         | _ && _ = true =>
           let H' := fresh "B" in
           apply andb_prop in H; destruct H as [H H']
         end.






(** C3, against the claim as worded: the copy of the replacement fails with
    the mapped-file condition, the size of the replacement cannot be read,
    and the function returns without hiding the tail. *)
Lemma C3_counterexample : ~ C3_as_stated.
Proof.
  intro H.
  specialize (H Scenario.x64 _ Scenario.os
                (Scenario.boot Scenario.unreadable_size)
                "calc.exe" "decoy.bin" "notepad.exe" Scenario.pattern
                false false).
  cbv zeta in H.
  assert (E : status_at (Line 198)
                (trace Scenario.os
                   (ExecuteProcess Scenario.x64 "calc.exe" "decoy.bin"
                                   (Some "notepad.exe") Scenario.pattern
                                   false false)
                   (Scenario.boot Scenario.unreadable_size))
              = Some USER_MAPPED) by (vm_compute; reflexivity).
  specialize (H E). vm_compute in H. discriminate H.
Qed.

(** C3, amended.  In replace-with-file mode, when the copy of the
    replacement over the target (line 198) fails with [hr]:
    - if [hr] is not [HRESULT_FROM_WIN32(ERROR_USER_MAPPED_FILE)], the
      function returns [hr]; it makes none of the fallback calls and does not
      go on to the bootstrap;
    - otherwise it reads the size of the replacement (line 222).  If that
      fails the function returns that failure, without hiding the tail.  If
      it succeeds the function overwrites the target after that size with the
      pattern (line 232) and goes on to the bootstrap whatever the outcome:
      a failure is logged as a warning and the signature directory is left
      alone; on success the signature directory is extended by the number of
      bytes written (line 244), and a failure of that is logged as a warning.
      When the thread is then created the function returns [S_OK]. *)
Theorem C3_replace_fallback :
  forall pf W (os : Handler W) (w : W) TargetBinary FileName path Pattern
         WaitForProcess HoldHandleExclusive,
    let p := ExecuteProcess pf TargetBinary FileName (Some path) Pattern
                            WaitForProcess HoldHandleExclusive in
    forall hr,
      status_at (Line 198) (trace os p w) = Some hr ->
      FAILED hr = true ->
      C3_fallback Pattern (trace os p w) (result os p w) hr.
Proof.
  intros pf W os w tb fn path pat wait excl p.
  exact (run_sat os _ _ w (fallback_sat pf tb fn path pat wait excl)).
Qed.

(** The copy fails with the mapped-file condition and hiding the tail fails
    too: a warning, and the run goes on. *)
Lemma C3_witness :
  let p := Scenario.replace_run false false in
  let w := Scenario.boot Scenario.failing_hide in
  C3_fallback Scenario.pattern (trace Scenario.os p w)
              (result Scenario.os p w) USER_MAPPED.
Proof.
  intros p w.
  apply (C3_replace_fallback
           Scenario.x64 _ Scenario.os w "calc.exe" "decoy.bin" "notepad.exe"
           Scenario.pattern false false).
  - vm_compute. reflexivity.
  - vm_compute. reflexivity.
Defined.

(** C4.  In pattern mode, once the entry point is resolved (line 148
    succeeded), the function calls [OverwriteFileContentsWithPattern] on the
    target handle with the caller's pattern (line 262), and that is the only
    substitution write.  If it fails with [hr], the function returns [hr],
    does not go on to the bootstrap, creates no thread, and the guard
    terminates the process that was created. *)
Theorem C4_pattern_overwrite_is_fatal :
  forall pf W (os : Handler W) (w : W) TargetBinary FileName Pattern
         WaitForProcess HoldHandleExclusive,
    let p := ExecuteProcess pf TargetBinary FileName None Pattern
                            WaitForProcess HoldHandleExclusive in
    ok_at (Line 148) (trace os p w) = true ->
    C4_pattern Pattern (trace os p w) (result os p w).
Proof.
  intros pf W os w tb fn pat wait excl p.
  exact (run_sat os _ _ w (pattern_sat pf tb fn pat wait excl)).
Qed.

Lemma C4_witness :
  let p := Scenario.pattern_run false false in
  let w := Scenario.boot Scenario.failing_overwrite in
  C4_pattern Scenario.pattern (trace Scenario.os p w) (result Scenario.os p w).
Proof.
  intros p w.
  apply (C4_pattern_overwrite_is_fatal
           Scenario.x64 _ Scenario.os w "calc.exe" "decoy.bin"
           Scenario.pattern false false).
  vm_compute. reflexivity.
Defined.

(** C5, against the claim as worded: the target exits with code 7 and
    [ExecuteProcess] returns [S_OK]. *)
Lemma C5_counterexample : ~ C5_as_stated.
Proof.
  intro H.
  specialize (H Scenario.x64 _ Scenario.os
                (Scenario.boot Scenario.exits_with_7)
                "calc.exe" "decoy.bin" None Scenario.pattern false 268 true 7).
  cbv zeta in H.
  assert (E : event_at (Line 377)
                (trace Scenario.os
                   (ExecuteProcess Scenario.x64 "calc.exe" "decoy.bin" None
                                   Scenario.pattern true false)
                   (Scenario.boot Scenario.exits_with_7))
              = Some (Ev (Line 377) (GetExitCodeProcess 268) (true, 7)))
    by (vm_compute; reflexivity).
  specialize (H E). vm_compute in H. discriminate H.
Qed.

(** C5, amended.  Once the thread is created the function returns [S_OK]
    and the guard does not terminate the process.  With [WaitForProcess] it
    first waits on the process handle without a timeout (line 374), reads
    the exit code (line 377) and logs it (line 379); the exit code is not
    part of what is returned.  Without it, it makes neither call, logs that
    the process was spawned, and unwinds. *)
Theorem C5_wait_for_process :
  forall pf W (os : Handler W) (w : W) TargetBinary FileName ReplaceWith
         Pattern WaitForProcess HoldHandleExclusive,
    let p := ExecuteProcess pf TargetBinary FileName ReplaceWith Pattern
                            WaitForProcess HoldHandleExclusive in
    thread_created (trace os p w) = true ->
    C5_wait WaitForProcess (trace os p w) (result os p w).
Proof.
  intros pf W os w tb fn rw pat wait excl p.
  exact (run_sat os _ _ w (wait_sat pf tb fn rw pat wait excl)).
Qed.

Lemma C5_witness :
  let p := Scenario.pattern_run true false in
  let w := Scenario.boot Scenario.exits_with_7 in
  C5_wait true (trace Scenario.os p w) (result Scenario.os p w).
Proof.
  intros p w.
  apply (C5_wait_for_process
           Scenario.x64 _ Scenario.os w "calc.exe" "decoy.bin" None
           Scenario.pattern true false).
  vm_compute. reflexivity.
Defined.

(** C6, against the claim as worded: with exclusive access requested the
    function itself closes the target handle, when the local
    [targetHandle] leaves scope. *)
Lemma C6_counterexample : ~ C6_as_stated.
Proof.
  intro H.
  specialize (H Scenario.x64 _ Scenario.os
                (Scenario.boot Scenario.nominal)
                "calc.exe" "decoy.bin" None Scenario.pattern false).
  cbv zeta in H.
  specialize (H ltac:(vm_compute; reflexivity) 260
                ltac:(vm_compute; reflexivity)
                (Ev (Dtor targetHandle) (CloseHandle 260) true)).
  assert (I : In (Ev (Dtor targetHandle) (CloseHandle 260) true)
                 (trace Scenario.os
                    (ExecuteProcess Scenario.x64 "calc.exe" "decoy.bin" None
                                    Scenario.pattern false true)
                    (Scenario.boot Scenario.nominal))).
  { vm_compute. repeat (first [left; reflexivity | right]). }
  specialize (H I). vm_compute in H. discriminate H.
Qed.

(** C6, amended.  Once the thread is created and its id reported (line
    349): without exclusive access the next call closes the target handle
    (line 364), and the scope exit has nothing left to close; with exclusive
    access line 364 is skipped and the target handle is closed when the
    local leaves scope, after every call of the body, while the function
    unwinds.  Apart from these two closes, the calls that follow are the same
    for both values of the flag. *)
Theorem C6_target_handle_after_thread :
  forall pf W (os : Handler W) (w : W) TargetBinary FileName ReplaceWith
         Pattern WaitForProcess HoldHandleExclusive,
    let p := ExecuteProcess pf TargetBinary FileName ReplaceWith Pattern
                            WaitForProcess HoldHandleExclusive in
    thread_created (trace os p w) = true ->
    C6_tail WaitForProcess HoldHandleExclusive (trace os p w).
Proof.
  intros pf W os w tb fn rw pat wait excl p.
  exact (run_sat os _ _ w (tail_sat pf tb fn rw pat wait excl)).
Qed.

Lemma C6_witness :
  let p := Scenario.pattern_run true true in
  let w := Scenario.boot Scenario.nominal in
  C6_tail true true (trace Scenario.os p w).
Proof.
  intros p w.
  apply (C6_target_handle_after_thread
           Scenario.x64 _ Scenario.os w "calc.exe" "decoy.bin" None
           Scenario.pattern true true).
  vm_compute. reflexivity.
Defined.

(** C8.  The entry-point RVA is read from the target file (line 148) after
    the process is created and before any call of the substitution block;
    the bootstrap follows the substitution block, in the order: query the
    process (line 278), read its PEB at the base address the query gave
    (line 290), write the process parameters for [FileName] at
    [Add2Ptr(PebBaseAddress, FIELD_OFFSET(PEB, ProcessParameters))]
    (line 309), create the thread at
    [Add2Ptr(ImageBaseAddress, imageEntryPointRva)] (line 331); each step is
    taken only after the one before it succeeded. *)
Theorem C8_entry_point_and_bootstrap :
  forall pf W (os : Handler W) (w : W) TargetBinary FileName ReplaceWith
         Pattern WaitForProcess HoldHandleExclusive,
    let t := trace os (ExecuteProcess pf TargetBinary FileName ReplaceWith
                                      Pattern WaitForProcess
                                      HoldHandleExclusive) w in
    precedes (both (at_line 119) ok) (at_line 148) t /\
    precedes (both (at_line 148) ok) substitution_stage t /\
    never_after substitution_stage (at_line 148) t /\
    precedes substitution_stage (at_line 278) t /\
    never_after (at_line 278) substitution_stage t /\
    precedes (both (at_line 278) ok) (at_line 290) t /\
    precedes (both (at_line 290) ok) (at_line 309) t /\
    precedes (both (at_line 309) ok) (at_line 331) t /\
    C8_flow pf FileName t.
Proof.
  intros pf W os w tb fn rw pat wait excl t.
  destruct (run_sat os _ _ w (bootstrap_sat pf tb fn rw pat wait excl))
    as [H F].
  fold t in H, F. unfold C8_order in H. booleans H.
  repeat split;
    first [ apply precedes_b_sound; assumption
          | apply never_after_b_sound; assumption
          | apply F ].
Qed.

(** The thread of a nominal run starts at image base + entry RVA. *)
Lemma C8_witness :
  let t := trace Scenario.os (Scenario.pattern_run false false)
                 (Scenario.boot Scenario.nominal) in
  exists tgt proc hr rva st pbi peb hr' r,
    handle_at (Line 64) t = Some tgt /\
    handle_at (Line 119) t = Some proc /\
    event_at (Line 148) t =
      Some (Ev (Line 148) (GetImageEntryPointRva tgt) (hr, rva)) /\
    event_at (Line 278) t =
      Some (Ev (Line 278)
               (NtQueryInformationProcess proc ProcessBasicInformation)
               (st, pbi)) /\
    event_at (Line 290) t =
      Some (Ev (Line 290) (ReadProcessMemory proc (PebBaseAddress pbi))
               (true, peb)) /\
    event_at (Line 309) t =
      Some (Ev (Line 309)
               (WriteRemoteProcessParameters
                  proc "decoy.bin"
                  (Add2Ptr Scenario.x64 (PebBaseAddress pbi)
                           (FIELD_OFFSET_PEB_ProcessParameters Scenario.x64)))
               hr') /\
    Ev (Line 331) (NtCreateThreadEx THREAD_ALL_ACCESS 268 0x140001000)
       (0, 272) =
    Ev (Line 331)
       (NtCreateThreadEx THREAD_ALL_ACCESS proc
                         (Add2Ptr Scenario.x64 (ImageBaseAddress peb) rva)) r.
Proof.
  intro t.
  destruct (C8_entry_point_and_bootstrap
              Scenario.x64 _ Scenario.os (Scenario.boot Scenario.nominal)
              "calc.exe" "decoy.bin" None Scenario.pattern false false)
    as (_ & _ & _ & _ & _ & _ & _ & _ & H).
  apply H. vm_compute. reflexivity.
Defined.

(** C9.  When the process is created (line 119 succeeds with a valid
    handle), it was created from the section handle that line 103 returned.
    If that handle is valid, the calls that follow are: read the process id,
    log it, close the section handle (line 142).  The local is then empty:
    the scope exit never closes it.  From the close on, no call is given the
    section handle's value, unless the system has handed that value out
    again for a new object; this needs only that the value differs from the
    two handles open at the time, the target's and the process's. *)
Theorem C9_section_handle_released :
  forall pf W (os : Handler W) (w : W) TargetBinary FileName ReplaceWith
         Pattern WaitForProcess HoldHandleExclusive,
    let t := trace os (ExecuteProcess pf TargetBinary FileName ReplaceWith
                                      Pattern WaitForProcess
                                      HoldHandleExclusive) w in
    forall proc, created_at (Line 119) t = Some proc -> C9_section t proc.
Proof.
  intros pf W os w tb fn rw pat wait excl t.
  exact (run_sat os _ _ w (section_sat pf tb fn rw pat wait excl)).
Qed.

Lemma C9_witness :
  C9_section (trace Scenario.os (Scenario.replace_run true false)
                    (Scenario.boot Scenario.nominal)) 268.
Proof.
  apply (C9_section_handle_released
           Scenario.x64 _ Scenario.os (Scenario.boot Scenario.nominal)
           "calc.exe" "decoy.bin" (Some "notepad.exe") Scenario.pattern
           true false).
  vm_compute. reflexivity.
Defined.

(** C10, against the claim as worded: in replace-with-file mode the copy at
    line 198 reads the replacement through its own handle (272), which is
    not the target's (260). *)
Lemma C10_counterexample : ~ C10_as_stated.
Proof.
  intro H.
  specialize (H Scenario.x64 _ Scenario.os (Scenario.boot Scenario.nominal)
                "calc.exe" "decoy.bin" (Some "notepad.exe") Scenario.pattern
                false false).
  cbv zeta in H.
  specialize (H 260 ltac:(vm_compute; reflexivity)
                (Ev (Line 198) (CopyFileByHandle 272 260) S_OK)).
  assert (I : In (Ev (Line 198) (CopyFileByHandle 272 260) S_OK)
                 (after (Line 97)
                    (trace Scenario.os
                       (ExecuteProcess Scenario.x64 "calc.exe" "decoy.bin"
                                       (Some "notepad.exe") Scenario.pattern
                                       false false)
                       (Scenario.boot Scenario.nominal)))).
  { vm_compute. repeat (first [left; reflexivity | right]). }
  specialize (H I 272 ltac:(left; reflexivity)). discriminate H.
Qed.

(** C10, amended.  When the copy of the source into the target succeeds
    (line 82), the calls that follow are: log it, close the source handle
    (line 97).  The section is created after that close and not before.  The
    local is then empty: the scope exit never closes it.  From the close on,
    every call that maps, parses or writes the image file is given the
    target handle; the only other file handle a call is given is that of the
    replacement, opened at line 177 and read in replace-with-file mode; and
    no call is given the source handle's value, unless the system has handed
    that value out again for a new object, which needs only that the value
    differs from the target handle, open at the time. *)
Theorem C10_source_handle_closed :
  forall pf W (os : Handler W) (w : W) TargetBinary FileName ReplaceWith
         Pattern WaitForProcess HoldHandleExclusive,
    let t := trace os (ExecuteProcess pf TargetBinary FileName ReplaceWith
                                      Pattern WaitForProcess
                                      HoldHandleExclusive) w in
    ok_at (Line 82) t = true -> C10_source TargetBinary t.
Proof.
  intros pf W os w tb fn rw pat wait excl t.
  exact (run_sat os _ _ w (source_sat pf tb fn rw pat wait excl)).
Qed.

Lemma C10_witness :
  C10_source "calc.exe"
             (trace Scenario.os (Scenario.replace_run true false)
                    (Scenario.boot Scenario.nominal)).
Proof.
  apply (C10_source_handle_closed
           Scenario.x64 _ Scenario.os (Scenario.boot Scenario.nominal)
           "calc.exe" "decoy.bin" (Some "notepad.exe") Scenario.pattern
           true false).
  vm_compute. reflexivity.
Defined.

(** * Further properties of the function *)

(** X1.  In every run, each [CloseHandle] the function issues closes a
    handle that is open at that point: one that an earlier successful call
    handed back valid and that has not been closed since.  When the function
    returns, no handle it obtained is left open.  This holds for the six
    handle locals on every path, whatever values the system hands out. *)
Theorem X1_handles_closed_exactly_once :
  forall pf W (os : Handler W) (w : W) TargetBinary FileName ReplaceWith
         Pattern WaitForProcess HoldHandleExclusive,
    let t := trace os (ExecuteProcess pf TargetBinary FileName ReplaceWith
                                      Pattern WaitForProcess
                                      HoldHandleExclusive) w in
    open_after [] t = Some [].
Proof.
  intros pf W os w tb fn rw pat wait excl t.
  exact (proj1 (accounted_sound _ [] []
                  (run_sat os _ _ w (accounted_sat pf tb fn rw pat wait excl))
                  (Permutation_refl _))).
Qed.

(** X2.  In every run, every valid handle that any call is given is open at
    that point: obtained from an earlier successful call and not closed
    since.  No call is given a handle after its close, and the guard's
    [TerminateProcess] runs while the process handle is still open.  (The
    pseudo handle of the current process, and handles the system handed back
    null, are not valid handles.) *)
Theorem X2_only_open_handles_are_used :
  forall pf W (os : Handler W) (w : W) TargetBinary FileName ReplaceWith
         Pattern WaitForProcess HoldHandleExclusive,
    let t := trace os (ExecuteProcess pf TargetBinary FileName ReplaceWith
                                      Pattern WaitForProcess
                                      HoldHandleExclusive) w in
    live_uses [] t = true.
Proof.
  intros pf W os w tb fn rw pat wait excl t.
  exact (proj2 (accounted_sound _ [] []
                  (run_sat os _ _ w (accounted_sat pf tb fn rw pat wait excl))
                  (Permutation_refl _))).
Qed.

(** X3.  Once a call whose result the function tests has failed that test
    (an invalid handle from [CreateFileW], a failing [NTSTATUS] from a
    native call, [FALSE] from [ReadProcessMemory], a failed [HRESULT] from a
    helper), other than the three such failures the function carries on
    after (the copy of the replacement failing with the mapped-file
    condition, and the two steps of the fallback), every later call only
    reports or cleans up: it reads the last error, writes a log
    entry of level [Error], closes a handle or terminates the process.  In
    particular no file is created, written or mapped, and no process or
    thread is created, after such a failure.  What [CloseHandle],
    [GetProcessId], [GetThreadId], [TerminateProcess],
    [WaitForSingleObject] and [GetExitCodeProcess] answer is not tested by
    the function and is no failure here: the function carries on after
    them. *)
Theorem X3_only_report_and_cleanup_after_failure :
  forall pf W (os : Handler W) (w : W) TargetBinary FileName ReplaceWith
         Pattern WaitForProcess HoldHandleExclusive,
    let t := trace os (ExecuteProcess pf TargetBinary FileName ReplaceWith
                                      Pattern WaitForProcess
                                      HoldHandleExclusive) w in
    never_after failure goes_on t.
Proof.
  intros pf W os w tb fn rw pat wait excl t.
  apply never_after_b_sound.
  exact (run_sat os _ _ w (failstop_sat pf tb fn rw pat wait excl)).
Qed.

(** A run in which the pattern overwrite fails (the 18th call): the guard's
    [TerminateProcess], three calls later, is cleanup. *)
Lemma X3_witness :
  let t := trace Scenario.os (Scenario.pattern_run false true)
                 (Scenario.boot Scenario.failing_overwrite) in
  goes_on (nth 20 t (Ev (Line 0) GetLastError 0)) = false.
Proof.
  intro t.
  apply (X3_only_report_and_cleanup_after_failure
           Scenario.x64 _ Scenario.os (Scenario.boot Scenario.failing_overwrite)
           "calc.exe" "decoy.bin" None Scenario.pattern false true
           (firstn 17 t) (nth 17 t (Ev (Line 0) GetLastError 0)) (skipn 18 t)).
  - vm_compute. reflexivity.
  - vm_compute. reflexivity.
  - vm_compute. right. right. left. reflexivity.
Defined.

(** X4.  Every failure of a call whose result the function tests is logged
    at once and with its code.  A failed Win32 call ([CreateFileW] handing
    back an invalid handle, [ReadProcessMemory] answering [FALSE]) is
    followed immediately by a read of the last error, and that by a log
    entry of level [Error] carrying the value read.  Any other failed call
    the function exits on is followed immediately by a log entry of level
    [Error] carrying the call's [NTSTATUS] or [HRESULT].  A failed step of
    the fallback is followed immediately by an entry of level [Warning]
    carrying its [HRESULT].  The log has no other entry of level [Error] or
    [Warning]. *)
Theorem X4_failures_are_logged_with_their_code :
  forall pf W (os : Handler W) (w : W) TargetBinary FileName ReplaceWith
         Pattern WaitForProcess HoldHandleExclusive,
    let t := trace os (ExecuteProcess pf TargetBinary FileName ReplaceWith
                                      Pattern WaitForProcess
                                      HoldHandleExclusive) w in
    reported Nothing t.
Proof.
  intros pf W os w tb fn rw pat wait excl t.
  exact (run_sat os _ _ w (reported_sat pf tb fn rw pat wait excl)).
Qed.

(** X5.  The files the function opens are, in this order and no others: the
    source, for reading, existing only, shared for read, write and delete;
    the target, for reading and writing, always created anew, shared for
    nothing when [HoldHandleExclusive] is set and for everything otherwise;
    and, in replace-with-file mode, the replacement, opened as the source
    is.  A run that fails opens a prefix of them; a run that reaches the
    bootstrap (line 275) has opened them all. *)
Theorem X5_files_opened :
  forall pf W (os : Handler W) (w : W) TargetBinary FileName ReplaceWith
         Pattern WaitForProcess HoldHandleExclusive,
    let t := trace os (ExecuteProcess pf TargetBinary FileName ReplaceWith
                                      Pattern WaitForProcess
                                      HoldHandleExclusive) w in
    (exists n,
       files_opened t =
       firstn n (files_to_open TargetBinary FileName ReplaceWith
                               HoldHandleExclusive)) /\
    (occurs (Line 275) t = true ->
     files_opened t =
     files_to_open TargetBinary FileName ReplaceWith HoldHandleExclusive).
Proof.
  intros pf W os w tb fn rw pat wait excl t.
  exact (run_sat os _ _ w (files_sat pf tb fn rw pat wait excl)).
Qed.

(** A run in replace-with-file mode that reaches the bootstrap opens the
    three files. *)
Lemma X5_witness :
  files_opened (trace Scenario.os (Scenario.replace_run true false)
                      (Scenario.boot Scenario.nominal)) =
  files_to_open "calc.exe" "decoy.bin" (Some "notepad.exe") false.
Proof.
  apply (X5_files_opened
           Scenario.x64 _ Scenario.os (Scenario.boot Scenario.nominal)
           "calc.exe" "decoy.bin" (Some "notepad.exe") Scenario.pattern
           true false).
  vm_compute. reflexivity.
Defined.

(** X6.  The numbers in the log are the ones the function got or used: the
    process id is what [GetProcessId] answered for the created process; the
    RVA is what [GetImageEntryPointRva] answered for the target file; the
    address of the remote process parameters is the one then passed to
    [WriteRemoteProcessParameters]; the entry point is the start address
    then passed to [NtCreateThreadEx]; the thread id is what [GetThreadId]
    answered for the created thread; the exit code is what
    [GetExitCodeProcess] answered for the process. *)
Theorem X6_log_shows_the_values_used :
  forall pf W (os : Handler W) (w : W) TargetBinary FileName ReplaceWith
         Pattern WaitForProcess HoldHandleExclusive,
    let t := trace os (ExecuteProcess pf TargetBinary FileName ReplaceWith
                                      Pattern WaitForProcess
                                      HoldHandleExclusive) w in
    log_values t.
Proof.
  intros pf W os w tb fn rw pat wait excl t.
  exact (run_sat os _ _ w (log_values_sat pf tb fn rw pat wait excl)).
Qed.

(** In the scripted run the log shows the entry point 0x140001000, and the
    thread is started there. *)
Lemma X6_witness :
  exists proc r,
    event_at (Line 331)
             (trace Scenario.os (Scenario.pattern_run true false)
                    (Scenario.boot Scenario.nominal)) =
    Some (Ev (Line 331)
             (NtCreateThreadEx THREAD_ALL_ACCESS proc 0x140001000) r).
Proof.
  destruct (X6_log_shows_the_values_used
              Scenario.x64 _ Scenario.os (Scenario.boot Scenario.nominal)
              "calc.exe" "decoy.bin" None Scenario.pattern true false)
    as (_ & _ & _ & H & _).
  apply (H 0x140001000).
  vm_compute. reflexivity.
Defined.

(** X7.  In replace-with-file mode the fallback is entered only through the
    mapped-file condition: every call of lines 217-252 (reading the
    replacement's size, hiding the tail, extending the signature directory,
    their log entries), and every call that is given the filler pattern,
    comes after a copy of the replacement that failed with
    [HRESULT_FROM_WIN32(ERROR_USER_MAPPED_FILE)].  After a copy that
    succeeded the pattern is never used. *)
Theorem X7_fallback_only_after_mapped_file_failure :
  forall pf W (os : Handler W) (w : W) TargetBinary FileName path
         Pattern WaitForProcess HoldHandleExclusive,
    let t := trace os (ExecuteProcess pf TargetBinary FileName (Some path)
                                      Pattern WaitForProcess
                                      HoldHandleExclusive) w in
    precedes mapped_file_failure (either fallback_step takes_pattern) t.
Proof.
  intros pf W os w tb fn path pat wait excl t.
  apply precedes_b_sound.
  exact (run_sat os _ _ w (fallback_entry_sat pf tb fn path pat wait excl)).
Qed.

(** A run in which hiding the tail fails: the call at line 232 is the 21st,
    and the failed copy of the replacement is among the 20 before it. *)
Lemma X7_witness :
  let t := trace Scenario.os (Scenario.replace_run false false)
                 (Scenario.boot Scenario.failing_hide) in
  exists e', In e' (firstn 20 t) /\ mapped_file_failure e' = true.
Proof.
  intro t.
  apply (X7_fallback_only_after_mapped_file_failure
           Scenario.x64 _ Scenario.os (Scenario.boot Scenario.failing_hide)
           "calc.exe" "decoy.bin" "notepad.exe" Scenario.pattern false false
           (firstn 20 t) (nth 20 t (Ev (Line 0) GetLastError 0)) (skipn 21 t)).
  - vm_compute. reflexivity.
  - vm_compute. reflexivity.
Defined.

(** X8.  Every call works on objects of the right kind that this run
    created: each valid handle passed as a file, section, process or thread
    parameter was handed back, earlier in the run, by a successful
    [CreateFileW], [NtCreateSection], [NtCreateProcessEx] or
    [NtCreateThreadEx] respectively.  The function never queries, writes,
    starts a thread in, or terminates a process other than the one it
    created, and never reads or writes a file it did not open. *)
Theorem X8_calls_work_on_objects_of_their_kind :
  forall pf W (os : Handler W) (w : W) TargetBinary FileName ReplaceWith
         Pattern WaitForProcess HoldHandleExclusive,
    let t := trace os (ExecuteProcess pf TargetBinary FileName ReplaceWith
                                      Pattern WaitForProcess
                                      HoldHandleExclusive) w in
    well_kinded [] t.
Proof.
  intros pf W os w tb fn rw pat wait excl t.
  exact (run_sat os _ _ w (kinds_sat pf tb fn rw pat wait excl)).
Qed.
